(** * Shallow embedding of the object store, the User model, the users views
    and the request gate of alx-backend-user-data (0x01 and 0x02 projects). *)

From Stdlib Require Import String Ascii List ZArith Bool Lia.
Import ListNotations.
Local Open Scope string_scope.
Local Open Scope list_scope.
Local Open Scope Z_scope.

Local Set Warnings "-register-all".

(** ** Python values *)

(** [datetime.datetime] (naive, as [utcnow()] and [strptime] produce). *)
Record datetime := mkdt {
  dt_year : Z; dt_month : Z; dt_day : Z;
  dt_hour : Z; dt_minute : Z; dt_second : Z; dt_microsecond : Z }.

(** The Python values the code handles: the JSON values of request bodies
    and store files (JSON numbers as integers), datetimes, and bound methods
    (identified by their name). *)
Inductive pyval :=
| PNone
| PBool (b : bool)
| PInt (z : Z)
| PStr (s : string)
| PList (l : list pyval)
| PDict (d : list (string * pyval))
| PDate (d : datetime)
| PMeth (name : string).

(** Python exceptions raised along the modelled paths. [Unmodelled] marks
    inputs outside the model (a non-string [id] in keyword arguments). *)
Inductive exc :=
| ValueError (msg : string)
| TypeError
| AttributeError
| HTTPError (code : Z)
| Unmodelled.

Inductive res (A : Type) :=
| Ok (a : A)
| Err (e : exc).
Arguments Ok {A} a.
Arguments Err {A} e.

Definition res_bind {A B} (m : res A) (k : A -> res B) : res B :=
  match m with Ok a => k a | Err e => Err e end.
Notation "'let!' x := m 'in' k" := (res_bind m (fun x => k))
  (at level 200, x name, m at level 100, k at level 200).

(** Python truthiness ([bool(v)]). *)
Definition truthy (v : pyval) : bool :=
  match v with
  | PNone => false
  | PBool b => b
  | PInt z => negb (Z.eqb z 0)
  | PStr s => negb (String.eqb s "")
  | PList l => match l with [] => false | _ => true end
  | PDict d => match d with [] => false | _ => true end
  | PDate _ => true
  | PMeth _ => true
  end.

Fixpoint lookup {A} (k : string) (l : list (string * A)) : option A :=
  match l with
  | [] => None
  | (k', v) :: l' => if String.eqb k k' then Some v else lookup k l'
  end.

(** [dict.get(k)]: [None] when the key is absent. *)
Definition kwargs_get (k : string) (kw : list (string * pyval)) : pyval :=
  match lookup k kw with Some v => v | None => PNone end.

(** [d[k] = v] on an insertion-ordered dict: overwrite in place or append. *)
Fixpoint dict_set {A} (k : string) (v : A) (l : list (string * A))
  : list (string * A) :=
  match l with
  | [] => [(k, v)]
  | (k', v') :: l' =>
      if String.eqb k k' then (k, v) :: l' else (k', v') :: dict_set k v l'
  end.

(** [del d[k]]. *)
Fixpoint dict_del {A} (k : string) (l : list (string * A))
  : list (string * A) :=
  match l with
  | [] => []
  | (k', v') :: l' => if String.eqb k k' then l' else (k', v') :: dict_del k l'
  end.

Definition dt_eqb (a b : datetime) : bool :=
  (dt_year a =? dt_year b) && (dt_month a =? dt_month b)
  && (dt_day a =? dt_day b) && (dt_hour a =? dt_hour b)
  && (dt_minute a =? dt_minute b) && (dt_second a =? dt_second b)
  && (dt_microsecond a =? dt_microsecond b).

(** [bool] is a subclass of [int] in Python: [True == 1]. *)
Definition as_num (v : pyval) : option Z :=
  match v with
  | PBool b => Some (if b then 1 else 0)
  | PInt z => Some z
  | _ => None
  end.

(** Python [==] on these values (dict equality ignores key order). *)
Fixpoint py_eq (a b : pyval) {struct a} : bool :=
  match as_num a, as_num b with
  | Some x, Some y => Z.eqb x y
  | _, _ =>
      match a, b with
      | PNone, PNone => true
      | PStr s, PStr t => String.eqb s t
      | PList l, PList m =>
          (fix go (l m : list pyval) : bool :=
             match l, m with
             | [], [] => true
             | x :: l', y :: m' => py_eq x y && go l' m'
             | _, _ => false
             end) l m
      | PDict d, PDict e =>
          Nat.eqb (length d) (length e)
          && (fix go (d : list (string * pyval)) : bool :=
                match d with
                | [] => true
                | (k, v) :: d' =>
                    match lookup k e with
                    | Some w => py_eq v w
                    | None => false
                    end && go d'
                end) d
      | PDate x, PDate y => dt_eqb x y
      | PMeth x, PMeth y => String.eqb x y
      | _, _ => false
      end
  end.

(** Values [json.dump] can serialise. *)
Fixpoint json_ok (v : pyval) : bool :=
  match v with
  | PNone | PBool _ | PInt _ | PStr _ => true
  | PList l => (fix go (l : list pyval) : bool :=
                  match l with [] => true | x :: l' => json_ok x && go l' end) l
  | PDict d => (fix go (d : list (string * pyval)) : bool :=
                  match d with
                  | [] => true
                  | (_, x) :: d' => json_ok x && go d'
                  end) d
  | PDate _ | PMeth _ => false
  end.

(** ** Timestamps: [TIMESTAMP_FORMAT = "%Y-%m-%dT%H:%M:%S"] *)

Definition digit (n : Z) : ascii := ascii_of_nat (48 + Z.to_nat n).

Definition is_digit (c : ascii) : bool :=
  let n := nat_of_ascii c in (Nat.leb 48 n && Nat.leb n 57)%bool.

Definition digit_val (c : ascii) : Z := Z.of_nat (nat_of_ascii c) - 48.

(** Zero-padded two-digit field ([%m], [%d], [%H], [%M], [%S]). *)
Definition pad2 (n : Z) : string :=
  String (digit (n / 10)) (String (digit (n mod 10)) EmptyString).

(** Plain decimal ([%Y] as glibc's strftime prints it: no padding). *)
Fixpoint dec_aux (fuel : nat) (n : Z) (acc : string) : string :=
  match fuel with
  | O => acc
  | S f =>
      let acc' := String (digit (n mod 10)) acc in
      if n <? 10 then acc' else dec_aux f (n / 10) acc'
  end.

Definition dec (n : Z) : string := dec_aux 20 n "".

(** [dt.strftime(TIMESTAMP_FORMAT)]. *)
Definition strftime (d : datetime) : string :=
  dec (dt_year d) ++ "-" ++ pad2 (dt_month d) ++ "-" ++ pad2 (dt_day d)
  ++ "T" ++ pad2 (dt_hour d) ++ ":" ++ pad2 (dt_minute d) ++ ":"
  ++ pad2 (dt_second d).

(** Split at the first character satisfying [sep]: the text before it and
    the text after it. *)
Fixpoint split_on (sep : ascii -> bool) (s : string) : option (string * string) :=
  match s with
  | EmptyString => None
  | String c s' =>
      if sep c then Some (EmptyString, s')
      else match split_on sep s' with
           | Some (f, r) => Some (String c f, r)
           | None => None
           end
  end.

Fixpoint digits_value (s : string) (acc : Z) : option Z :=
  match s with
  | EmptyString => Some acc
  | String c s' => if is_digit c then digits_value s' (acc * 10 + digit_val c)
                   else None
  end.

(** [%Y] in [_strptime]: [\d\d\d\d]. *)
Definition year_field (f : string) : option Z :=
  if Nat.eqb (String.length f) 4 then digits_value f 0 else None.

(** [%m], [%H], [%M], [%S] in [_strptime]: a two-digit number in [lo..hi]
    or a one-digit number at least [lo] (e.g. [1[0-2]|0[1-9]|[1-9]]). *)
Definition num_field (lo hi : Z) (f : string) : option Z :=
  match digits_value f 0 with
  | None => None
  | Some v =>
      match String.length f with
      | 1%nat => if lo <=? v then Some v else None
      | 2%nat => if (lo <=? v) && (v <=? hi) then Some v else None
      | _ => None
      end
  end.

(** [%d] in [_strptime]: [3[01]|[12]\d|0[1-9]|[1-9]| [1-9]]. *)
Definition day_field (f : string) : option Z :=
  match f with
  | String " " (String c EmptyString) =>
      if is_digit c && (1 <=? digit_val c) then Some (digit_val c) else None
  | _ => num_field 1 31 f
  end.

Definition is_leap (y : Z) : bool :=
  ((y mod 4 =? 0) && negb (y mod 100 =? 0)) || (y mod 400 =? 0).

Definition days_in_month (y m : Z) : Z :=
  if (m =? 2) then (if is_leap y then 29 else 28)
  else if (m =? 4) || (m =? 6) || (m =? 9) || (m =? 11) then 30 else 31.

Definition sep_dash (c : ascii) : bool := Ascii.eqb c "-"%char.
Definition sep_colon (c : ascii) : bool := Ascii.eqb c ":"%char.
(** [_strptime] compiles the format with [re.IGNORECASE]. *)
Definition sep_T (c : ascii) : bool := Ascii.eqb c "T"%char || Ascii.eqb c "t"%char.

Definition strptime_error : exc :=
  ValueError "time data does not match format '%Y-%m-%dT%H:%M:%S'".

Definition opt_res {A} (o : option A) : res A :=
  match o with Some a => Ok a | None => Err strptime_error end.

(** [datetime.strptime(s, TIMESTAMP_FORMAT)] on ASCII text: the regex of
    [_strptime] (each field is delimited by the next literal of the format,
    which no field can contain), then the range checks of [datetime(...)]. *)
Definition strptime (s : string) : res datetime :=
  let! p1 := opt_res (split_on sep_dash s) in
  let! p2 := opt_res (split_on sep_dash (snd p1)) in
  let! p3 := opt_res (split_on sep_T (snd p2)) in
  let! p4 := opt_res (split_on sep_colon (snd p3)) in
  let! p5 := opt_res (split_on sep_colon (snd p4)) in
  let! y := opt_res (year_field (fst p1)) in
  let! mo := opt_res (num_field 1 12 (fst p2)) in
  let! d := opt_res (day_field (fst p3)) in
  let! h := opt_res (num_field 0 23 (fst p4)) in
  let! mi := opt_res (num_field 0 59 (fst p5)) in
  let! sec := opt_res (num_field 0 61 (snd p5)) in
  if (1 <=? y) && (d <=? days_in_month y mo) && (sec <=? 59)
  then Ok (mkdt y mo d h mi sec 0)
  else Err (ValueError "day is out of range for month").

(** A datetime value [datetime] accepts. *)
Definition valid_dt (d : datetime) : Prop :=
  1 <= dt_year d <= 9999 /\ 1 <= dt_month d <= 12
  /\ 1 <= dt_day d <= days_in_month (dt_year d) (dt_month d)
  /\ 0 <= dt_hour d <= 23 /\ 0 <= dt_minute d <= 59 /\ 0 <= dt_second d <= 59
  /\ 0 <= dt_microsecond d <= 999999.

(** The datetime truncated to the second. *)
Definition trunc_dt (d : datetime) : datetime :=
  mkdt (dt_year d) (dt_month d) (dt_day d) (dt_hour d) (dt_minute d)
       (dt_second d) 0.

(** *** Facts about the timestamp format *)

Arguments digit : simpl never.
Arguments pad2 : simpl never.
Arguments dec : simpl never.

Lemma digit_cases (n : Z) : 0 <= n <= 9 -> In n [0; 1; 2; 3; 4; 5; 6; 7; 8; 9].
Proof. intros H; cbn; lia. Qed.

Ltac digit_split n :=
  let H := fresh in
  intros H; apply digit_cases in H; cbn in H;
  repeat (destruct H as [<-|H]; [vm_compute; reflexivity|]); contradiction.

Lemma digit_is_digit n : 0 <= n <= 9 -> is_digit (digit n) = true.
Proof. digit_split n. Qed.

Lemma digit_val_digit n : 0 <= n <= 9 -> digit_val (digit n) = n.
Proof. digit_split n. Qed.

Lemma digit_not_dash n : 0 <= n <= 9 -> sep_dash (digit n) = false.
Proof. digit_split n. Qed.

Lemma digit_not_colon n : 0 <= n <= 9 -> sep_colon (digit n) = false.
Proof. digit_split n. Qed.

Lemma digit_not_T n : 0 <= n <= 9 -> sep_T (digit n) = false.
Proof. digit_split n. Qed.

Lemma digits_value_cons c s acc :
  is_digit c = true ->
  digits_value (String c s) acc = digits_value s (acc * 10 + digit_val c).
Proof. intros H; simpl; rewrite H; reflexivity. Qed.

Lemma pad2_split n :
  0 <= n <= 99 -> 0 <= n / 10 <= 9 /\ 0 <= n mod 10 <= 9 /\ n = n / 10 * 10 + n mod 10.
Proof. intros; Z.div_mod_to_equations; lia. Qed.

Lemma digits_value_pad2 n :
  0 <= n <= 99 -> digits_value (pad2 n) 0 = Some n.
Proof.
  intros H; destruct (pad2_split n H) as (H1 & H2 & H3).
  unfold pad2; rewrite !digits_value_cons by (apply digit_is_digit; lia).
  rewrite !digit_val_digit by lia; simpl; f_equal; lia.
Qed.

Lemma num_field_pad2 lo hi n :
  0 <= lo -> lo <= n <= hi -> hi <= 99 -> num_field lo hi (pad2 n) = Some n.
Proof.
  intros H0 H1 H2; unfold num_field; rewrite digits_value_pad2 by lia.
  simpl. replace ((lo <=? n) && (n <=? hi))%bool with true; [reflexivity|].
  symmetry; apply andb_true_iff; split; apply Z.leb_le; lia.
Qed.

Lemma day_field_digit c r :
  is_digit c = true -> day_field (String c r) = num_field 1 31 (String c r).
Proof.
  destruct c as [[] [] [] [] [] [] [] []]; intros H; try discriminate H;
    reflexivity.
Qed.

Lemma day_field_pad2 n : 1 <= n <= 31 -> day_field (pad2 n) = Some n.
Proof.
  intros H; destruct (pad2_split n) as (H1 & _); [lia|].
  unfold pad2 at 1; rewrite day_field_digit by (apply digit_is_digit; lia).
  apply num_field_pad2; lia.
Qed.

Lemma dec_four y :
  1000 <= y <= 9999 ->
  dec y = String (digit (y / 10 / 10 / 10 mod 10))
            (String (digit (y / 10 / 10 mod 10))
              (String (digit (y / 10 mod 10)) (String (digit (y mod 10)) ""))).
Proof.
  intros H; unfold dec; cbn [dec_aux].
  destruct (Z.ltb_spec y 10); [lia|].
  destruct (Z.ltb_spec (y / 10) 10); [Z.div_mod_to_equations; lia|].
  destruct (Z.ltb_spec (y / 10 / 10) 10); [Z.div_mod_to_equations; lia|].
  destruct (Z.ltb_spec (y / 10 / 10 / 10) 10); [|Z.div_mod_to_equations; lia].
  reflexivity.
Qed.

Lemma year_field_dec y : 1000 <= y <= 9999 -> year_field (dec y) = Some y.
Proof.
  intros H; rewrite dec_four by lia; unfold year_field; simpl String.length.
  cbn [Nat.eqb].
  assert (R : forall k, 0 <= k mod 10 <= 9) by (intros; Z.div_mod_to_equations; lia).
  rewrite !digits_value_cons by (apply digit_is_digit; apply R).
  rewrite !digit_val_digit by apply R; simpl; f_equal.
  Z.div_mod_to_equations; lia.
Qed.

Lemma split_on_app sep f c r :
  (forall i, (i < String.length f)%nat ->
     exists a, String.get i f = Some a /\ sep a = false) ->
  sep c = true -> split_on sep (f ++ String c r) = Some (f, r).
Proof.
  revert r; induction f as [|a f IH]; intros r Hf Hc; simpl.
  - rewrite Hc; reflexivity.
  - destruct (Hf 0%nat) as (a' & Ha & Hs); [simpl; lia|].
    simpl in Ha; injection Ha as <-; rewrite Hs.
    rewrite IH; [reflexivity| |exact Hc].
    intros i Hi; apply (Hf (S i)); simpl; lia.
Qed.

Lemma pad2_no_sep sep n :
  0 <= n <= 99 -> (forall k, 0 <= k <= 9 -> sep (digit k) = false) ->
  forall i, (i < String.length (pad2 n))%nat ->
     exists a, String.get i (pad2 n) = Some a /\ sep a = false.
Proof.
  intros H Hs i Hi; destruct (pad2_split n H) as (H1 & H2 & _).
  destruct i as [|[|i]]; simpl in *; try lia; eexists; split; eauto.
Qed.

Lemma dec_no_sep sep y :
  1000 <= y <= 9999 -> (forall k, 0 <= k <= 9 -> sep (digit k) = false) ->
  forall i, (i < String.length (dec y))%nat ->
     exists a, String.get i (dec y) = Some a /\ sep a = false.
Proof.
  intros H Hs i Hi; rewrite dec_four in * by lia.
  assert (R : forall k, 0 <= k mod 10 <= 9) by (intros; Z.div_mod_to_equations; lia).
  destruct i as [|[|[|[|i]]]]; simpl in *; try lia; eexists; split; eauto.
Qed.

(** Formatting then parsing a timestamp gives it back to the second. *)
Lemma strptime_strftime d :
  valid_dt d -> 1000 <= dt_year d ->
  strptime (strftime d) = Ok (trunc_dt d).
Proof.
  destruct d as [y mo da h mi s us]; unfold valid_dt, trunc_dt; cbn.
  intros (Hy & Hmo & Hda & Hh & Hmi & Hs & Hus) H1.
  assert (Hdim : days_in_month y mo <= 31)
    by (unfold days_in_month; repeat destruct (_ =? _); simpl;
        try destruct (is_leap y); lia).
  unfold strftime, strptime; cbn [dt_year dt_month dt_day dt_hour dt_minute dt_second].
  cbn [String.append].
  rewrite split_on_app; [|apply dec_no_sep; [lia|apply digit_not_dash]|reflexivity].
  cbn [opt_res res_bind fst snd].
  rewrite split_on_app; [|apply pad2_no_sep; [lia|apply digit_not_dash]|reflexivity].
  cbn [opt_res res_bind fst snd].
  rewrite split_on_app; [|apply pad2_no_sep; [lia|apply digit_not_T]|reflexivity].
  cbn [opt_res res_bind fst snd].
  rewrite split_on_app; [|apply pad2_no_sep; [lia|apply digit_not_colon]|reflexivity].
  cbn [opt_res res_bind fst snd].
  rewrite split_on_app; [|apply pad2_no_sep; [lia|apply digit_not_colon]|reflexivity].
  cbn [opt_res res_bind fst snd].
  rewrite year_field_dec by lia; cbn [opt_res res_bind].
  rewrite num_field_pad2 by lia; cbn [opt_res res_bind].
  rewrite day_field_pad2 by lia; cbn [opt_res res_bind].
  rewrite num_field_pad2 by lia; cbn [opt_res res_bind].
  rewrite num_field_pad2 by lia; cbn [opt_res res_bind].
  rewrite num_field_pad2 by lia; cbn [opt_res res_bind].
  replace ((1 <=? y) && (da <=? days_in_month y mo) && (s <=? 59))%bool with true;
    [reflexivity|].
  symmetry; rewrite !andb_true_iff, !Z.leb_le; lia.
Qed.

(** ** models/base.py *)

(** A stored object: [id], [created_at], [updated_at] set by
    [Base.__init__], then the attributes the subclass's [__init__] sets, in
    the order of [self.__dict__]. *)
Record obj := mkobj {
  id : string;
  created_at : datetime;
  updated_at : datetime;
  attrs : list (string * pyval) }.

(** A subclass of [Base]: its name, the attributes its [__init__] reads from
    keyword arguments ([self.x = kwargs.get('x')]), its properties (name and
    backing attribute) and its methods. *)
Record pyclass := mkcls {
  cls_name : string;
  cls_fields : list string;
  cls_props : list (string * string);
  cls_methods : list string }.

Definition base_methods : list string :=
  ["__init__"; "_parse_datetime"; "__eq__"; "to_json"; "load_from_file";
   "save_to_file"; "save"; "remove"; "count"; "all"; "get"; "search"].

(** models/user.py (0x02). *)
Definition User : pyclass :=
  mkcls "User" ["email"; "_password"; "first_name"; "last_name"]
        [("password", "_password")]
        (base_methods ++ ["is_valid_password"; "display_name"]).

(** models/user_session.py. *)
Definition UserSession : pyclass :=
  mkcls "UserSession" ["user_id"; "session_id"] [] base_methods.

(** [self.__dict__]. *)
Definition obj_dict (o : obj) : list (string * pyval) :=
  ("id", PStr (id o)) :: ("created_at", PDate (created_at o))
  :: ("updated_at", PDate (updated_at o)) :: attrs o.

Definition starts_with_underscore (key : string) : bool :=
  match key with String "_" _ => true | _ => false end.

(** [Base.to_json(for_serialization)]. *)
Fixpoint to_json_items (for_serialization : bool) (items : list (string * pyval))
  : list (string * pyval) :=
  match items with
  | [] => []
  | (key, value) :: items' =>
      if negb for_serialization && starts_with_underscore key
      then to_json_items for_serialization items'
      else (key, match value with PDate d => PStr (strftime d) | v => v end)
           :: to_json_items for_serialization items'
  end.

Definition to_json (for_serialization : bool) (o : obj) : list (string * pyval) :=
  to_json_items for_serialization (obj_dict o).

(** [Base._parse_datetime] (0x02): [if date_str: strptime(...)] else
    [utcnow()]. *)
Definition parse_datetime (date_str : pyval) (now : datetime) : res datetime :=
  if truthy date_str then
    match date_str with PStr s => strptime s | _ => Err TypeError end
  else Ok now.

(** Calling the class on keyword arguments: [Base.__init__] then the subclass's [__init__].
    [fresh] is [str(uuid.uuid4())], [now] the [utcnow()] reading (both
    readings of one call are taken as the same instant). *)
Definition init (c : pyclass) (kwargs : list (string * pyval))
    (fresh : string) (now : datetime) : res obj :=
  let! i := match lookup "id" kwargs with
            | None => Ok fresh
            | Some (PStr s) => Ok s
            | Some _ => Err Unmodelled
            end in
  let! ca := parse_datetime (kwargs_get "created_at" kwargs) now in
  let! ua := parse_datetime (kwargs_get "updated_at" kwargs) now in
  Ok (mkobj i ca ua (map (fun f => (f, kwargs_get f kwargs)) (cls_fields c))).

(** [setattr(self, name, v)] for an attribute of [self.__dict__] other than
    the three of [Base]. *)
Definition set_attr (name : string) (v : pyval) (o : obj) : obj :=
  mkobj (id o) (created_at o) (updated_at o) (dict_set name v (attrs o)).

(** [getattr(obj, k)]: properties of the class, then the instance dict,
    then the methods; [None] is [AttributeError]. Attributes inherited from
    [object] (dunder names) are not modelled. *)
Definition getattr (c : pyclass) (o : obj) (k : string) : option pyval :=
  match lookup k (cls_props c) with
  | Some backing => lookup backing (obj_dict o)
  | None =>
      match lookup k (obj_dict o) with
      | Some v => Some v
      | None => if existsb (String.eqb k) (cls_methods c) then Some (PMeth k)
                else None
      end
  end.

(** *** The store: [DATA[cls]] and the file [.db_<cls>.json] *)

(** The in-memory map [DATA[cls]] of one class (keyed by id, insertion
    ordered) and the content of its file ([None] when the file does not
    exist). The map is taken to exist, as it does once [Base.__init__] or
    [load_from_file] has run for the class; the state without an entry for
    the class is not represented. The other classes' maps and files are
    untouched by the operations below. *)
Record store := mkstore {
  st_data : list (string * obj);
  st_file : option pyval }.

Definition empty_store : store := mkstore [] None.

(** State and error monad for code that mutates [DATA] and may raise. *)
Definition M (A : Type) : Type := store -> res A * store.

Definition ret {A} (a : A) : M A := fun st => (Ok a, st).
Definition raise {A} (e : exc) : M A := fun st => (Err e, st).
Definition lift {A} (r : res A) : M A := fun st => (r, st).
Definition bind {A B} (m : M A) (k : A -> M B) : M B :=
  fun st => match m st with
            | (Ok a, st') => k a st'
            | (Err e, st') => (Err e, st')
            end.
Definition modify (f : store -> store) : M unit := fun st => (Ok tt, f st).
Definition gets {A} (f : store -> A) : M A := fun st => (Ok (f st), st).
(** [try: ... except Exception as e: ...]: the state at the raise is kept. *)
Definition try_catch {A} (m : M A) (h : exc -> M A) : M A :=
  fun st => match m st with
            | (Ok a, st') => (Ok a, st')
            | (Err e, st') => h e st'
            end.

Notation "x <- m ;; k" := (bind m (fun x => k))
  (at level 61, m at next level, right associativity).
Notation "m ;;; k" := (bind m (fun _ => k))
  (at level 61, right associativity).

Definition set_data (d : list (string * obj)) (st : store) : store :=
  mkstore d (st_file st).
Definition set_file (f : option pyval) (st : store) : store :=
  mkstore (st_data st) f.

(** [json.dump]: the file holds the JSON document (serialising then
    [json.load] gives it back). *)
Definition json_dump (v : pyval) : res pyval :=
  if json_ok v then Ok v else Err TypeError.

Definition file_of (data : list (string * obj)) : pyval :=
  PDict (map (fun '(obj_id, o) => (obj_id, PDict (to_json true o))) data).

(** [Base.save_to_file]. *)
Definition save_to_file : M unit :=
  data <- gets st_data ;;
  f <- lift (json_dump (file_of data)) ;;
  modify (set_file (Some f)).

(** The loop of [Base.load_from_file]: [DATA[s_class][obj_id] = cls(...)] with the keyword arguments [obj_json]. *)
Fixpoint load_items (c : pyclass) (fresh : string) (now : datetime)
    (items : list (string * pyval)) : M unit :=
  match items with
  | [] => ret tt
  | (obj_id, obj_json) :: items' =>
      o <- lift (match obj_json with
                 | PDict kw => init c kw fresh now
                 | _ => Err TypeError
                 end) ;;
      modify (fun st => set_data (dict_set obj_id o (st_data st)) st) ;;;
      load_items c fresh now items'
  end.

(** [Base.load_from_file]. *)
Definition load_from_file (c : pyclass) (fresh : string) (now : datetime) : M unit :=
  modify (set_data []) ;;;
  file <- gets st_file ;;
  match file with
  | None => ret tt
  | Some (PDict objs_json) => load_items c fresh now objs_json
  | Some _ => raise AttributeError
  end.

(** [Base.save], with [now] the [utcnow()] reading. *)
Definition save (o : obj) (now : datetime) : M obj :=
  let o' := mkobj (id o) (created_at o) now (attrs o) in
  modify (fun st => set_data (dict_set (id o') o' (st_data st)) st) ;;;
  save_to_file ;;;
  ret o'.

(** [Base.remove]. *)
Definition remove (o : obj) : M unit :=
  data <- gets st_data ;;
  match lookup (id o) data with
  | Some _ => modify (set_data (dict_del (id o) data)) ;;; save_to_file
  | None => ret tt
  end.

(** [Base.get]. *)
Definition get (i : string) : M (option obj) := gets (fun st => lookup i (st_data st)).

(** [all(getattr(obj, k) == v for k, v in attributes.items())]. *)
Fixpoint all_match (c : pyclass) (o : obj) (attributes : list (string * pyval))
  : res bool :=
  match attributes with
  | [] => Ok true
  | (k, v) :: attributes' =>
      match getattr c o k with
      | None => Err AttributeError
      | Some w => if py_eq w v then all_match c o attributes' else Ok false
      end
  end.

(** [list(filter(_search, ...))]. *)
Fixpoint filter_res (p : obj -> res bool) (l : list obj) : res (list obj) :=
  match l with
  | [] => Ok []
  | o :: l' =>
      let! b := p o in
      let! r := filter_res p l' in
      Ok (if b then o :: r else r)
  end.

(** [Base.search(attributes)]. *)
Definition search (c : pyclass) (attributes : list (string * pyval)) : M (list obj) :=
  data <- gets st_data ;;
  lift (filter_res (fun o => all_match c o attributes) (map snd data)).

(** [Base.all()]. *)
Definition all (c : pyclass) : M (list obj) := search c [].

(** ** models/user.py *)

Definition lower_char (c : ascii) : ascii :=
  let n := nat_of_ascii c in
  if (Nat.leb 65 n && Nat.leb n 90)%bool then ascii_of_nat (n + 32) else c.

(** [str.lower()] on ASCII text. *)
Fixpoint lower (s : string) : string :=
  match s with
  | EmptyString => EmptyString
  | String c s' => String (lower_char c) (lower s')
  end.

(** The [password] property getter: [self._password]. *)
Definition password_getter (u : obj) : res pyval :=
  match lookup "_password" (obj_dict u) with
  | Some v => Ok v
  | None => Err AttributeError
  end.

Section Password.

(** [hashlib.sha256(pwd.encode()).hexdigest()]; strings are modelled as
    their encoded bytes. *)
Variable sha256_hexdigest : string -> string.

(** 0x02 [User.password] setter. *)
Definition password_setter (pwd : pyval) (u : obj) : obj :=
  match pwd with
  | PStr s => set_attr "_password" (PStr (lower (sha256_hexdigest s))) u
  | _ => set_attr "_password" PNone u
  end.

(** 0x02 [User.is_valid_password]. *)
Definition is_valid_password (u : obj) (pwd : pyval) : res bool :=
  match pwd with
  | PStr s =>
      let! p := password_getter u in
      match p with
      | PNone => Ok false
      | _ => let hashed_pwd := lower (sha256_hexdigest s) in
             Ok (py_eq (PStr hashed_pwd) p)
      end
  | _ => Ok false
  end.

(** 0x01 [User._hash_password]. *)
Definition hash_password_01 (pwd : string) : string :=
  lower (sha256_hexdigest pwd).

(** 0x01 [User.password] setter. *)
Definition password_setter_01 (pwd : pyval) (u : obj) : obj :=
  set_attr "_password"
    (match pwd with PStr s => PStr (hash_password_01 s) | _ => PNone end) u.

(** 0x01 [User.is_valid_password]. *)
Definition is_valid_password_01 (u : obj) (pwd : pyval) : res bool :=
  match pwd with
  | PStr s =>
      let! p := password_getter u in
      match p with
      | PNone => Ok false
      | _ => Ok (py_eq (PStr (hash_password_01 s)) p)
      end
  | _ => Ok false
  end.

End Password.

(** [a or b]. *)
Definition py_or (a b : pyval) : pyval := if truthy a then a else b.

Section DisplayName.

(** [format(v)] as used by the f-string [f"{first_name} {last_name}"]. *)
Variable py_format : pyval -> string.

Definition full_name (first_name last_name : pyval) : pyval :=
  PStr (py_format first_name ++ " " ++ py_format last_name).

(** 0x01 [User.display_name]. *)
Definition display_name_01 (email first_name last_name : pyval) : pyval :=
  if truthy first_name && truthy last_name then full_name first_name last_name
  else py_or (py_or (py_or first_name last_name) email) (PStr "").

(** 0x02 [User.display_name]. *)
Definition display_name_02 (email first_name last_name : pyval) : pyval :=
  if truthy email && negb (truthy first_name) && negb (truthy last_name)
  then email
  else if truthy first_name && negb (truthy last_name) then first_name
  else if truthy last_name && negb (truthy first_name) then last_name
  else if truthy first_name && truthy last_name then full_name first_name last_name
  else PStr "".

End DisplayName.

(** ** api/v1/views/users.py *)

Record response := Resp { status : Z; body : pyval }.

Definition exc_str (e : exc) : string :=
  match e with
  | ValueError msg => msg
  | TypeError => "TypeError"
  | AttributeError => "AttributeError"
  | HTTPError _ => "HTTPException"
  | Unmodelled => "unmodelled"
  end.

(** [v.get(k)]: only dicts have [get]. *)
Definition dict_get (v : pyval) (k : string) : res pyval :=
  match v with PDict d => Ok (kwargs_get k d) | _ => Err AttributeError end.

Fixpoint is_substring (s t : string) : bool :=
  String.prefix s t
  || match t with EmptyString => false | String _ t' => is_substring s t' end.

(** [s in v]. *)
Definition py_in (s : string) (v : pyval) : res bool :=
  match v with
  | PDict d => Ok (match lookup s d with Some _ => true | None => false end)
  | PList l => Ok (existsb (py_eq (PStr s)) l)
  | PStr t => Ok (is_substring s t)
  | _ => Err TypeError
  end.

(** The Flask error handlers of app.py for [abort(code)]. *)
Definition dispatch (m : M response) : M response :=
  try_catch m (fun e =>
    match e with
    | HTTPError 404 => ret (Resp 404 (PDict [("error", PStr "Not found")]))
    | HTTPError 401 => ret (Resp 401 (PDict [("error", PStr "Unauthorized")]))
    | HTTPError 403 => ret (Resp 403 (PDict [("error", PStr "Forbidden")]))
    | _ => ret (Resp 500 PNone)
    end).

(** [get_user_by_id] (the route always passes a string [user_id]). *)
Definition get_user_by_id (user_id : string) : M obj :=
  user <- get user_id ;;
  match user with
  | None => raise (HTTPError 404)
  | Some u => ret u
  end.

(** [GET /users]. *)
Definition view_all_users : M response :=
  dispatch (
    users <- all User ;;
    ret (Resp 200 (PList (map (fun u => PDict (to_json false u)) users)))).

(** [GET /users/:id]; [current_user] is [request.current_user] ([None]
    when [handle_auth] did not set it). *)
Definition view_one_user (current_user : option (option obj)) (user_id : string)
  : M response :=
  dispatch (
    if String.eqb user_id "me" then
      match current_user with
      | None => raise AttributeError
      | Some None => raise (HTTPError 404)
      | Some (Some u) => ret (Resp 200 (PDict (to_json false u)))
      end
    else
      user <- get_user_by_id user_id ;;
      ret (Resp 200 (PDict (to_json false user)))).

Definition error_400 (e : exc) : M response :=
  ret (Resp 400 (PDict [("error", PStr (exc_str e))])).

(** [POST /users]; [rj] is the outcome of [request.get_json()]. *)
Definition create_user (rj : res pyval) (fresh : string) (now : datetime)
  : M response :=
  dispatch (try_catch (
    rj <- lift rj ;;
    if negb (truthy rj) then raise (ValueError "Wrong format") else
    email <- lift (dict_get rj "email") ;;
    if negb (truthy email) then raise (ValueError "email missing") else
    pwd <- lift (dict_get rj "password") ;;
    if negb (truthy pwd) then raise (ValueError "password missing") else
    e <- lift (dict_get rj "email") ;;
    p <- lift (dict_get rj "password") ;;
    fn <- lift (dict_get rj "first_name") ;;
    ln <- lift (dict_get rj "last_name") ;;
    user <- lift (init User [("email", e); ("password", p);
                            ("first_name", fn); ("last_name", ln)] fresh now) ;;
    user <- save user now ;;
    ret (Resp 201 (PDict (to_json false user))))
  error_400).

(** [DATA[key]] is the object being mutated: a change to it is seen
    through the map. *)
Fixpoint dict_update {A} (k : string) (v : A) (l : list (string * A))
  : list (string * A) :=
  match l with
  | [] => []
  | (k', v') :: l' =>
      if String.eqb k k' then (k', v) :: l' else (k', v') :: dict_update k v l'
  end.

(** [user.name = v] on the object stored under [key]. *)
Definition mutate (key : string) (u : obj) (name : string) (v : pyval) : M obj :=
  let u' := set_attr name v u in
  modify (fun st => set_data (dict_update key u' (st_data st)) st) ;;;
  ret u'.

(** [if name in rj: user.name = rj.get(name)]. *)
Definition set_if_in (user_id : string) (rj : pyval) (name : string) (user : obj)
  : M obj :=
  b <- lift (py_in name rj) ;;
  if b then v <- lift (dict_get rj name) ;; mutate user_id user name v
  else ret user.

(** [PUT /users/:id]. *)
Definition update_user (user_id : string) (rj : res pyval) (now : datetime)
  : M response :=
  dispatch (
    user <- get_user_by_id user_id ;;
    try_catch (
      rj <- lift rj ;;
      if negb (truthy rj) then raise (ValueError "Wrong format") else
      user <- set_if_in user_id rj "first_name" user ;;
      user <- set_if_in user_id rj "last_name" user ;;
      user <- save user now ;;
      ret (Resp 200 (PDict (to_json false user))))
    error_400).

(** ** api/v1/app.py (0x02): [handle_auth] *)

(** An incoming request: its path, its headers and its cookies. *)
Record request := mkreq {
  req_path : string;
  req_headers : list (string * string);
  req_cookies : list (string * string) }.

(** The interface of the auth strategies ([api/v1/auth/*]) that
    [handle_auth] calls. *)
Record auth_strategy := mkauth {
  require_auth : string -> list string -> bool;
  authorization_header : request -> pyval;
  session_cookie : request -> pyval;
  current_user : request -> option obj }.

Definition excluded_list : list string :=
  ["/api/v1/status/"; "/api/v1/unauthorized/"; "/api/v1/forbidden/";
   "/api/v1/auth_session/login/"].

(** Outcome of the before-request hook: the request goes on (with
    [request.current_user] set when the hook reached that assignment) or
    is aborted with a status code. *)
Inductive gate :=
| Proceed
| ProceedAs (u : obj)
| Abort (code : Z).

(** [handle_auth]; [auth] is the module-level strategy ([None] when
    [AUTH_TYPE] names none; a strategy instance is truthy). *)
Definition handle_auth (auth : option auth_strategy) (r : request) : gate :=
  match auth with
  | None => Proceed
  | Some a =>
      if negb (require_auth a (req_path r) excluded_list) then Proceed
      else if negb (truthy (authorization_header a r))
              && negb (truthy (session_cookie a r))
      then Abort 401
      else match current_user a r with
           | None => Abort 403
           | Some u => ProceedAs u
           end
  end.

Definition opt_str (o : option string) : pyval :=
  match o with Some s => PStr s | None => PNone end.

(** Modelled from the spec: [Auth.authorization_header] of
    [api/v1/auth/auth.py] (not in the sources), the value of the request's
    Authorization header, absent when there is none. *)
Definition spec_authorization_header (r : request) : pyval :=
  opt_str (lookup "Authorization" (req_headers r)).

(** Modelled from the spec: [Auth.session_cookie] of [api/v1/auth/auth.py]
    (not in the sources), the value of the cookie named by the
    configuration (default [_my_session_id]), absent when there is none. *)
Definition spec_session_cookie (r : request) : pyval :=
  opt_str (lookup "_my_session_id" (req_cookies r)).

Definition ends_with_star (e : string) : bool :=
  match String.length e with
  | O => false
  | S n => String.eqb (String.substring n 1 e) "*"
  end.

(** Modelled from the spec: [Auth.require_auth] of [api/v1/auth/auth.py]
    (not in the sources): true unless the path equals an excluded entry or
    starts with the prefix of an excluded entry ending in [*]. *)
Definition spec_require_auth (path : string) (excluded : list string) : bool :=
  negb (existsb (fun e =>
          String.eqb path e
          || (ends_with_star e
              && String.prefix (String.substring 0 (String.length e - 1) e) path))
        excluded).

(** ** Lemmas on dicts and objects *)

Lemma lookup_dict_set_eq {A} k (v : A) l : lookup k (dict_set k v l) = Some v.
Proof.
  induction l as [|[k' v'] l IH]; simpl.
  - now rewrite String.eqb_refl.
  - destruct (String.eqb k k') eqn:E; simpl; rewrite ?String.eqb_refl, ?E; auto.
Qed.

Lemma lookup_dict_set_neq {A} k k' (v : A) l :
  k' <> k -> lookup k' (dict_set k v l) = lookup k' l.
Proof.
  intros Hn; induction l as [|[k0 v0] l IH]; simpl.
  - apply String.eqb_neq in Hn; now rewrite Hn.
  - destruct (String.eqb k k0) eqn:E; simpl.
    + apply String.eqb_eq in E; subst k0.
      apply String.eqb_neq in Hn; now rewrite Hn.
    + now rewrite IH.
Qed.

Lemma lookup_dict_update_eq {A} k (v : A) l :
  lookup k l <> None -> lookup k (dict_update k v l) = Some v.
Proof.
  induction l as [|[k' v'] l IH]; simpl; intros H; [congruence|].
  destruct (String.eqb k k') eqn:E; simpl; rewrite E; auto.
Qed.

Lemma lookup_dict_update_neq {A} k k' (v : A) l :
  k' <> k -> lookup k' (dict_update k v l) = lookup k' l.
Proof.
  intros Hn; induction l as [|[k0 v0] l IH]; simpl; auto.
  destruct (String.eqb k k0) eqn:E; simpl.
  - apply String.eqb_eq in E; subst k0.
    apply String.eqb_neq in Hn; now rewrite Hn.
  - now rewrite IH.
Qed.

Lemma password_getter_set u v :
  password_getter (set_attr "_password" v u) = Ok v.
Proof. unfold password_getter, set_attr; simpl; now rewrite lookup_dict_set_eq. Qed.

Lemma py_eq_str s t : py_eq (PStr s) (PStr t) = String.eqb s t.
Proof. reflexivity. Qed.

Lemma display_names_agree fmt e f l :
  display_name_01 fmt e f l = display_name_02 fmt e f l.
Proof.
  unfold display_name_01, display_name_02, py_or.
  destruct (truthy f) eqn:Hf, (truthy l) eqn:Hl, (truthy e) eqn:He;
    simpl; rewrite ?Hf, ?Hl, ?He; reflexivity.
Qed.

(** ** Concrete inputs *)

Definition t_2026 : datetime := mkdt 2026 10 14 9 30 15 250000.
Definition t_2026_later : datetime := mkdt 2026 10 14 9 30 16 0.

Definition user_ab : obj :=
  mkobj "u1" t_2026 t_2026
    [("email", PStr "a@b.com"); ("_password", PNone);
     ("first_name", PStr "Ada"); ("last_name", PNone)].

Definition store_ab : store := mkstore [("u1", user_ab)] None.

(** The body of the spec's scenario: [{"email": "a@b.com", "password": "secret"}]. *)
Definition body_secret : res pyval :=
  Ok (PDict [("email", PStr "a@b.com"); ("password", PStr "secret")]).

(** A stand-in for the hex digest (lowercase hexadecimal). *)
Definition toy_hexdigest (s : string) : string :=
  if String.eqb s "secret" then "2bb80d53" else "5e884898".

Lemma toy_hexdigest_lower : forall s, lower (toy_hexdigest s) = toy_hexdigest s.
Proof. intros s; unfold toy_hexdigest; destruct (String.eqb s "secret"); reflexivity. Qed.

(** ** Claims *)

(** C1 (code bug): [POST /users] with [{"email": "a@b.com", "password":
    "secret"}] passes the password as the keyword [password], which
    [User.__init__] never reads (it reads [_password]): the stored user has
    no password hash, so [is_valid_password("secret")] is false, whatever
    the store held before and whatever the digest function. *)
Theorem create_user_drops_password :
  forall sha256_hexdigest fresh now st,
    exists u,
      lookup fresh (st_data (snd (create_user body_secret fresh now st))) = Some u
      /\ password_getter u = Ok PNone
      /\ is_valid_password sha256_hexdigest u (PStr "secret") = Ok false
      /\ is_valid_password sha256_hexdigest u (PStr "wrong") = Ok false.
Proof.
  intros h fresh now [data file].
  unfold create_user, dispatch, try_catch, bind, lift, ret, raise; cbn.
  unfold save, save_to_file, bind, modify, gets, lift, ret; cbn.
  destruct (json_dump _); cbn;
    (eexists; split; [apply lookup_dict_set_eq|]; repeat split).
Qed.

(** C2 (corrected): the two [User.display_name] implementations (0x01 and
    0x02) return the same value for every combination of email, first name
    and last name: they do not disagree. *)
Theorem display_name_implementations_agree :
  forall py_format email first_name last_name,
    display_name_01 py_format email first_name last_name
    = display_name_02 py_format email first_name last_name.
Proof. intros; apply display_names_agree. Qed.

(** C2 counterexample: there is no input on which the two implementations
    return different display names. *)
Lemma display_name_no_disagreement :
  ~ exists py_format email first_name last_name,
      display_name_01 py_format email first_name last_name
      <> display_name_02 py_format email first_name last_name.
Proof. intros (fmt & e & f & l & H); apply H, display_names_agree. Qed.

(** The strategy of the C3 counterexample: the header and cookie readers
    and [require_auth] as the spec describes them, and an identity
    resolver that finds no user for the request (a malformed Basic header
    resolves to absent). *)
Definition strategy_no_user : auth_strategy :=
  mkauth spec_require_auth spec_authorization_header spec_session_cookie
         (fun _ => None).

(** [GET /api/v1/users] with an empty Authorization header and no cookie. *)
Definition req_empty_header : request :=
  mkreq "/api/v1/users" [("Authorization", "")] [].

(** [GET /api/v1/users/me] with the session cookie set. *)
Definition req_cookie : request :=
  mkreq "/api/v1/users/me" [] [("_my_session_id", "c0ffee")].

(** C3 as written, for one strategy and one request. *)
Definition gate_claim_as_stated (a : auth_strategy) (r : request) : Prop :=
  require_auth a (req_path r) excluded_list = true ->
  (handle_auth (Some a) r = Abort 401
     <-> authorization_header a r = PNone /\ session_cookie a r = PNone)
  /\ ((authorization_header a r <> PNone \/ session_cookie a r <> PNone) ->
      (handle_auth (Some a) r = Abort 403 <-> current_user a r = None)).

(** C3 (corrected): the gate lets every request through when no strategy
    is configured or the path is excluded; otherwise it answers 401 exactly
    when neither the Authorization header value nor the session cookie
    value is truthy (absent or empty), and else 403 exactly when the
    strategy resolves no user, attaching the user otherwise. *)
Theorem handle_auth_outcomes :
  forall (a : auth_strategy) (r : request),
    handle_auth None r = Proceed
    /\ (require_auth a (req_path r) excluded_list = false ->
        handle_auth (Some a) r = Proceed)
    /\ (require_auth a (req_path r) excluded_list = true ->
        (handle_auth (Some a) r = Abort 401
           <-> truthy (authorization_header a r) = false
               /\ truthy (session_cookie a r) = false)
        /\ ((truthy (authorization_header a r) = true
             \/ truthy (session_cookie a r) = true) ->
            (handle_auth (Some a) r = Abort 403 <-> current_user a r = None)
            /\ (forall u, current_user a r = Some u ->
                handle_auth (Some a) r = ProceedAs u))).
Proof.
  intros a r; unfold handle_auth; split; [reflexivity|]; split.
  { intros H; now rewrite H. }
  intros H; rewrite H; simpl; split.
  - destruct (truthy (authorization_header a r)), (truthy (session_cookie a r)),
      (current_user a r); simpl; split; intros; intuition congruence.
  - intros Hp.
    assert (E : (negb (truthy (authorization_header a r))
                 && negb (truthy (session_cookie a r)))%bool = false)
      by (destruct Hp as [Hp|Hp]; rewrite Hp; simpl; auto using andb_false_r).
    rewrite E; split.
    + destruct (current_user a r); split; intros; congruence.
    + intros u Hu; now rewrite Hu.
Qed.

(** C3 witness: a request carrying the session cookie, on a path that
    needs authentication, is refused with 403 by a strategy that resolves
    no user. *)
Lemma handle_auth_outcomes_witness :
  require_auth strategy_no_user (req_path req_cookie) excluded_list = true
  /\ truthy (session_cookie strategy_no_user req_cookie) = true
  /\ handle_auth (Some strategy_no_user) req_cookie = Abort 403.
Proof.
  split; [reflexivity|]; split; [reflexivity|].
  destruct (handle_auth_outcomes strategy_no_user req_cookie) as (_ & _ & H3).
  apply (proj2 (proj1 (proj2 (H3 eq_refl) (or_intror eq_refl)))); reflexivity.
Defined.

(** C3 counterexample: an Authorization header that is present but empty
    gets 401, not 403. *)
Lemma handle_auth_empty_header :
  ~ gate_claim_as_stated strategy_no_user req_empty_header.
Proof.
  unfold gate_claim_as_stated; intros H.
  destruct (H eq_refl) as [[H401 _] _].
  destruct (H401 eq_refl) as [Hh _]; discriminate Hh.
Qed.

Section PasswordClaims.

Variable sha256_hexdigest : string -> string.
(** [hexdigest()] writes lowercase hexadecimal digits. *)
Hypothesis hexdigest_lower :
  forall s, lower (sha256_hexdigest s) = sha256_hexdigest s.

(** C4: after [user.password = P], [is_valid_password(P)] is true and
    [is_valid_password(P')] is false for every [P'] of a different digest. *)
Theorem password_setter_validates :
  forall (u : obj) (P : string),
    is_valid_password sha256_hexdigest
      (password_setter sha256_hexdigest (PStr P) u) (PStr P) = Ok true
    /\ forall P', sha256_hexdigest P' <> sha256_hexdigest P ->
       is_valid_password sha256_hexdigest
         (password_setter sha256_hexdigest (PStr P) u) (PStr P') = Ok false.
Proof.
  intros u P; unfold is_valid_password, password_setter.
  rewrite password_getter_set; cbn [res_bind]; split.
  - rewrite py_eq_str, String.eqb_refl; reflexivity.
  - intros P' Hd; rewrite py_eq_str, !hexdigest_lower.
    apply String.eqb_neq in Hd; rewrite Hd; reflexivity.
Qed.

End PasswordClaims.

(** C4 witness, with a lowercase stand-in digest. *)
Lemma password_setter_validates_witness :
  is_valid_password toy_hexdigest
    (password_setter toy_hexdigest (PStr "secret") user_ab) (PStr "secret") = Ok true
  /\ is_valid_password toy_hexdigest
    (password_setter toy_hexdigest (PStr "secret") user_ab) (PStr "wrong") = Ok false.
Proof.
  destruct (password_setter_validates toy_hexdigest toy_hexdigest_lower user_ab "secret")
    as [H1 H2].
  split; [exact H1|]; apply H2; discriminate.
Defined.

(** C8: assigning a non-string value to [User.password] (in both the
    0x01 and the 0x02 model) stores [None] without raising, after which
    [is_valid_password] is false for every candidate. *)
Theorem non_string_password_clears_hash :
  forall sha256_hexdigest (u : obj) (v : pyval),
    (forall s, v <> PStr s) ->
    password_getter (password_setter sha256_hexdigest v u) = Ok PNone
    /\ (forall cand, is_valid_password sha256_hexdigest
                       (password_setter sha256_hexdigest v u) cand = Ok false)
    /\ password_getter (password_setter_01 sha256_hexdigest v u) = Ok PNone
    /\ (forall cand, is_valid_password_01 sha256_hexdigest
                       (password_setter_01 sha256_hexdigest v u) cand = Ok false).
Proof.
  intros h u v Hv.
  assert (E1 : password_setter h v u = set_attr "_password" PNone u)
    by (destruct v; try reflexivity; exfalso; eapply Hv; reflexivity).
  assert (E2 : password_setter_01 h v u = set_attr "_password" PNone u)
    by (destruct v; try reflexivity; exfalso; eapply Hv; reflexivity).
  rewrite E1, E2, !password_getter_set; repeat split; intros cand;
    unfold is_valid_password, is_valid_password_01; destruct cand; try reflexivity;
    rewrite password_getter_set; reflexivity.
Qed.

(** C8 witness: assigning the integer [5]. *)
Lemma non_string_password_clears_hash_witness :
  password_getter (password_setter toy_hexdigest (PInt 5) user_ab) = Ok PNone
  /\ is_valid_password toy_hexdigest
       (password_setter toy_hexdigest (PInt 5) user_ab) (PStr "secret") = Ok false.
Proof.
  destruct (non_string_password_clears_hash toy_hexdigest user_ab (PInt 5))
    as (H1 & H2 & _); [discriminate|].
  split; [exact H1|apply H2].
Defined.

(** Keys of a JSON response body: of the dict, or of the dicts of the list. *)
Definition response_keys (v : pyval) : list string :=
  match v with
  | PDict d => map fst d
  | PList l => flat_map (fun x => match x with PDict d => map fst d | _ => [] end) l
  | _ => []
  end.

Lemma to_json_items_public l k :
  In k (map fst (to_json_items false l)) -> starts_with_underscore k = false.
Proof.
  induction l as [|[key value] l IH]; simpl; [tauto|].
  destruct (starts_with_underscore key) eqn:E; simpl; auto.
  intros [<-|H]; auto.
Qed.

Lemma filter_res_true (l : list obj) : filter_res (fun _ => Ok true) l = Ok l.
Proof. induction l as [|o l IH]; simpl; [reflexivity|]; now rewrite IH. Qed.

Lemma view_all_users_eq st :
  view_all_users st
  = (Ok (Resp 200 (PList (map (fun u => PDict (to_json false u))
                             (map snd (st_data st))))), st).
Proof.
  unfold view_all_users, dispatch, try_catch, all, search, bind, gets, lift, ret.
  cbn [all_match]; now rewrite filter_res_true.
Qed.

(** C9: [to_json()] without [for_serialization] drops every attribute whose
    name starts with an underscore, so no body returned by [GET /users] or
    [GET /users/:id] has a key [_password] (or any key starting with [_]). *)
Theorem users_views_hide_private_attributes :
  (forall u k, In k (map fst (to_json false u)) -> starts_with_underscore k = false)
  /\ (forall st, exists r, fst (view_all_users st) = Ok r
        /\ ~ In "_password" (response_keys (body r))
        /\ forall k, In k (response_keys (body r)) -> starts_with_underscore k = false)
  /\ (forall current_user user_id st, exists r,
        fst (view_one_user current_user user_id st) = Ok r
        /\ ~ In "_password" (response_keys (body r))
        /\ forall k, In k (response_keys (body r)) -> starts_with_underscore k = false).
Proof.
  assert (Hu : forall u k, In k (map fst (to_json false u)) ->
              starts_with_underscore k = false)
    by (intros u k; apply to_json_items_public).
  assert (Hpub : forall v, (forall k, In k (response_keys v) ->
                            starts_with_underscore k = false) ->
                 ~ In "_password" (response_keys v))
    by (intros v H Hin; specialize (H _ Hin); discriminate H).
  split; [exact Hu|split].
  - intros st; rewrite view_all_users_eq; eexists; split; [reflexivity|].
    assert (H : forall k, In k (response_keys
                  (PList (map (fun u => PDict (to_json false u)) (map snd (st_data st)))))
                -> starts_with_underscore k = false).
    { intros k; simpl; rewrite in_flat_map; intros (x & Hx & Hk).
      apply in_map_iff in Hx; destruct Hx as (u & <- & _); eapply Hu; exact Hk. }
    split; [apply Hpub, H|exact H].
  - intros cur uid st.
    unfold view_one_user, dispatch, get_user_by_id, get, try_catch, bind, gets, ret, raise.
    destruct (String.eqb uid "me").
    + destruct cur as [[u|]|]; (eexists; split; [reflexivity|]).
      * assert (H : forall k, In k (response_keys
                   (body (Resp 200 (PDict (to_json false u))))) -> starts_with_underscore k = false)
          by (intros k; apply Hu).
        split; [apply Hpub, H|exact H].
      * assert (H : forall k, In k ["error"] -> starts_with_underscore k = false)
          by (intros k [<-|[]]; reflexivity).
        split; [apply (Hpub (PDict [("error", PStr "Not found")])), H|exact H].
      * split; simpl; [intros []|intros k []].
    + destruct (lookup uid (st_data st)) as [u|]; (eexists; split; [reflexivity|]).
      * assert (H : forall k, In k (response_keys
                   (body (Resp 200 (PDict (to_json false u))))) -> starts_with_underscore k = false)
          by (intros k; apply Hu).
        split; [apply Hpub, H|exact H].
      * assert (H : forall k, In k ["error"] -> starts_with_underscore k = false)
          by (intros k [<-|[]]; reflexivity).
        split; [apply (Hpub (PDict [("error", PStr "Not found")])), H|exact H].
Qed.

(** ** The file round trip *)

(** A class whose [__init__] attributes are distinct and differ from the
    three attributes of [Base]. *)
Definition class_wf (c : pyclass) : Prop :=
  NoDup (cls_fields c) /\ ~ In "id" (cls_fields c)
  /\ ~ In "created_at" (cls_fields c) /\ ~ In "updated_at" (cls_fields c).

(** An object as [__init__] builds it from JSON data: one attribute per
    field of its class, JSON values, timestamps that [strptime] reads back
    (current times: years with four digits). *)
Definition obj_wf (c : pyclass) (o : obj) : Prop :=
  map fst (attrs o) = cls_fields c
  /\ Forall (fun kv => json_ok (snd kv) = true) (attrs o)
  /\ valid_dt (created_at o) /\ 1000 <= dt_year (created_at o)
  /\ valid_dt (updated_at o) /\ 1000 <= dt_year (updated_at o).

Definition trunc_obj (o : obj) : obj :=
  mkobj (id o) (trunc_dt (created_at o)) (trunc_dt (updated_at o)) (attrs o).

Definition trunc_data (data : list (string * obj)) : list (string * obj) :=
  map (fun kv => (fst kv, trunc_obj (snd kv))) data.

Lemma class_wf_User : class_wf User.
Proof.
  unfold class_wf; simpl; repeat split; [|intuition discriminate..].
  repeat constructor; simpl; intuition discriminate.
Qed.

Lemma json_ok_dict l : json_ok (PDict l) = forallb (fun kv => json_ok (snd kv)) l.
Proof.
  induction l as [|[k v] l IH]; [reflexivity|].
  simpl in *; now rewrite IH.
Qed.

Lemma to_json_items_true l :
  Forall (fun kv => json_ok (snd kv) = true) l -> to_json_items true l = l.
Proof.
  induction l as [|[k v] l IH]; intros H; [reflexivity|].
  inversion H as [|? ? Hv Hl]; subst; simpl in *.
  rewrite IH by exact Hl; destruct v; try reflexivity; discriminate Hv.
Qed.

Lemma to_json_true c o :
  obj_wf c o ->
  to_json true o = ("id", PStr (id o)) :: ("created_at", PStr (strftime (created_at o)))
                   :: ("updated_at", PStr (strftime (updated_at o))) :: attrs o.
Proof.
  intros (_ & Hj & _); unfold to_json, obj_dict; cbn [to_json_items negb andb].
  now rewrite to_json_items_true.
Qed.

Lemma forallb_json_attrs (l : list (string * pyval)) :
  Forall (fun kv => json_ok (snd kv) = true) l ->
  forallb (fun kv => json_ok (snd kv)) l = true.
Proof. intros H; apply forallb_forall; intros x Hx; now apply (proj1 (Forall_forall _ _) H). Qed.

Lemma json_ok_file_of c data :
  Forall (fun kv => obj_wf c (snd kv)) data -> json_ok (file_of data) = true.
Proof.
  intros H; unfold file_of; rewrite json_ok_dict; apply forallb_forall.
  intros kv Hin; apply in_map_iff in Hin; destruct Hin as ([k o] & <- & Hin).
  change (json_ok (PDict (to_json true o)) = true); rewrite json_ok_dict.
  pose proof (proj1 (Forall_forall _ _) H _ Hin) as Hw; simpl in Hw.
  rewrite (to_json_true c o Hw); simpl.
  destruct Hw as (_ & Hj & _); now apply forallb_json_attrs.
Qed.

Lemma strftime_nonempty d : String.eqb (strftime d) "" = false.
Proof. unfold strftime; destruct (dec (dt_year d)); reflexivity. Qed.

Lemma lookup_app_none {A} k (l1 l2 : list (string * A)) :
  lookup k l1 = None -> lookup k (l1 ++ l2) = lookup k l2.
Proof.
  induction l1 as [|[k' v'] l1 IH]; simpl; auto.
  destruct (String.eqb k k'); [discriminate|auto].
Qed.

Lemma map_kwargs_get_self l :
  NoDup (map fst l) -> map (fun f => (f, kwargs_get f l)) (map fst l) = l.
Proof.
  induction l as [|[k v] l IH]; intros Hn; [reflexivity|].
  simpl in *; inversion Hn as [|? ? Hk Hn']; subst.
  unfold kwargs_get at 1; simpl; rewrite String.eqb_refl; f_equal.
  rewrite <- IH at 2 by exact Hn'.
  apply map_ext_in; intros f Hf; unfold kwargs_get; simpl.
  destruct (String.eqb f k) eqn:E; [|reflexivity].
  apply String.eqb_eq in E; subst; contradiction.
Qed.

Lemma init_to_json c o fresh now :
  class_wf c -> obj_wf c o -> init c (to_json true o) fresh now = Ok (trunc_obj o).
Proof.
  intros Hc Hw; rewrite (to_json_true c o Hw).
  destruct Hc as (Hnd & Hid & Hca & Hua).
  destruct Hw as (Hf & Hj & Hvc & Hyc & Hvu & Hyu).
  unfold init, parse_datetime, kwargs_get; cbn [lookup String.eqb res_bind].
  cbn; rewrite !strftime_nonempty; cbn.
  rewrite !strptime_strftime by assumption; cbn.
  unfold trunc_obj; f_equal; f_equal.
  rewrite <- Hf.
  change (map (fun f => (f, kwargs_get f
            (("id", PStr (id o)) :: ("created_at", PStr (strftime (created_at o)))
             :: ("updated_at", PStr (strftime (updated_at o))) :: attrs o)))
            (map fst (attrs o)) = attrs o).
  rewrite <- (map_kwargs_get_self (attrs o)) at 2 by (rewrite Hf; exact Hnd).
  apply map_ext_in; intros f Hin; rewrite Hf in Hin; unfold kwargs_get.
  cbn [lookup].
  destruct (String.eqb f "id") eqn:E1;
    [apply String.eqb_eq in E1; subst; contradiction|].
  destruct (String.eqb f "created_at") eqn:E2;
    [apply String.eqb_eq in E2; subst; contradiction|].
  destruct (String.eqb f "updated_at") eqn:E3;
    [apply String.eqb_eq in E3; subst; contradiction|].
  reflexivity.
Qed.

Lemma dict_set_absent {A} k (v : A) l :
  lookup k l = None -> dict_set k v l = l ++ [(k, v)].
Proof.
  induction l as [|[k' v'] l IH]; simpl; intros H; [reflexivity|].
  destruct (String.eqb k k'); [discriminate|now rewrite IH].
Qed.

Lemma load_items_file c fresh now items acc f :
  class_wf c -> NoDup (map fst items) ->
  Forall (fun kv => obj_wf c (snd kv)) items ->
  (forall k, In k (map fst items) -> lookup k acc = None) ->
  load_items c fresh now
    (map (fun '(obj_id, o) => (obj_id, PDict (to_json true o))) items) (mkstore acc f)
  = (Ok tt, mkstore (acc ++ trunc_data items) f).
Proof.
  intros Hc; revert acc; induction items as [|[k o] items IH]; intros acc Hn Hw Ha.
  - simpl; now rewrite app_nil_r.
  - inversion Hn as [|? ? Hk Hn']; inversion Hw as [|? ? Ho Hw']; subst.
    cbn [map load_items]; unfold bind, lift, modify.
    rewrite (init_to_json c o fresh now Hc Ho); cbn [st_data set_data].
    rewrite dict_set_absent by (apply Ha; simpl; auto).
    unfold set_data; cbn [st_file]; rewrite IH; [|exact Hn'|exact Hw'|].
    + now rewrite <- app_assoc.
    + intros k' Hk'; rewrite lookup_app_none by (apply Ha; simpl; auto).
      simpl; destruct (String.eqb k' k) eqn:E; [|reflexivity].
      apply String.eqb_eq in E; subst; contradiction.
Qed.

Lemma load_file_of c fresh now data d0 :
  class_wf c -> NoDup (map fst data) -> Forall (fun kv => obj_wf c (snd kv)) data ->
  load_from_file c fresh now (mkstore d0 (Some (file_of data)))
  = (Ok tt, mkstore (trunc_data data) (Some (file_of data))).
Proof.
  intros Hc Hn Hw; unfold load_from_file, bind, modify, gets; cbn.
  apply (load_items_file c fresh now data [] _ Hc Hn Hw); intros; reflexivity.
Qed.

Lemma save_to_file_wf c data file :
  Forall (fun kv => obj_wf c (snd kv)) data ->
  save_to_file (mkstore data file) = (Ok tt, mkstore data (Some (file_of data))).
Proof.
  intros Hw; unfold save_to_file, bind, gets, lift, modify, json_dump; cbn [st_data].
  now rewrite (json_ok_file_of c data Hw).
Qed.

(** C5: writing a class's objects with [save_to_file] and reading them back
    with [load_from_file] gives the same ids, under the same keys and in the
    same order, with the same attribute values and the timestamps
    truncated to the second. *)
Theorem save_load_roundtrip :
  forall c data file fresh now,
    class_wf c -> NoDup (map fst data) ->
    Forall (fun kv => obj_wf c (snd kv)) data ->
    (save_to_file ;;; load_from_file c fresh now) (mkstore data file)
    = (Ok tt, mkstore (trunc_data data) (Some (file_of data))).
Proof.
  intros c data file fresh now Hc Hn Hw; unfold bind at 1.
  rewrite (save_to_file_wf c data file Hw).
  now apply load_file_of.
Qed.

(** C5 witness: a store holding one user. *)
Lemma save_load_roundtrip_witness :
  (save_to_file ;;; load_from_file User "unused" t_2026_later) store_ab
  = (Ok tt, mkstore (trunc_data (st_data store_ab)) (Some (file_of (st_data store_ab)))).
Proof.
  apply (save_load_roundtrip User [("u1", user_ab)] None "unused" t_2026_later).
  - exact class_wf_User.
  - repeat constructor; intros [].
  - constructor; [|constructor].
    unfold obj_wf, valid_dt; cbn; repeat split; try lia; repeat constructor.
Defined.

(** ** Search *)












(** ** Store invariants *)

(** Datetime comparison ([a <= b]): lexicographic on the fields. *)
Fixpoint lex_le (a b : list Z) : bool :=
  match a, b with
  | x :: a', y :: b' => (x <? y) || ((x =? y) && lex_le a' b')
  | _, _ => true
  end.

Definition dt_fields (d : datetime) : list Z :=
  [dt_year d; dt_month d; dt_day d; dt_hour d; dt_minute d; dt_second d;
   dt_microsecond d].

Definition dt_le (a b : datetime) : bool := lex_le (dt_fields a) (dt_fields b).

(** Every object is stored under its own id. *)
Definition keys_are_ids (data : list (string * obj)) : Prop :=
  Forall (fun kv => fst kv = id (snd kv)) data.

(** The store operations of [Base] on one class; [save] runs on a
    well-formed object at a [utcnow()] reading with a four-digit year. *)
Inductive store_step (c : pyclass) : store -> store -> Prop :=
| step_save o now st r st' :
    obj_wf c o -> valid_dt now -> 1000 <= dt_year now ->
    save o now st = (r, st') -> store_step c st st'
| step_remove o st r st' :
    remove o st = (r, st') -> store_step c st st'
| step_load fresh now st r st' :
    load_from_file c fresh now st = (r, st') -> store_step c st st'.

Inductive reachable (c : pyclass) : store -> Prop :=
| reach_init : reachable c empty_store
| reach_step st st' : reachable c st -> store_step c st st' -> reachable c st'.

Definition store_inv (c : pyclass) (st : store) : Prop :=
  keys_are_ids (st_data st) /\ NoDup (map fst (st_data st))
  /\ Forall (fun kv => obj_wf c (snd kv)) (st_data st)
  /\ ((st_file st = None /\ st_data st = [])
      \/ st_file st = Some (file_of (st_data st))).

Lemma Forall_dict_set {A} (P : string * A -> Prop) k v l :
  Forall P l -> P (k, v) -> Forall P (dict_set k v l).
Proof.
  induction l as [|[k' v'] l IH]; intros H Hp; simpl; [auto|].
  inversion H; subst; destruct (String.eqb k k'); constructor; auto.
Qed.

Lemma in_keys_dict_set {A} k k' (v : A) l :
  In k' (map fst (dict_set k v l)) -> k' = k \/ In k' (map fst l).
Proof.
  induction l as [|[k0 v0] l IH]; simpl; [intuition|].
  destruct (String.eqb k k0) eqn:E; simpl.
  - apply String.eqb_eq in E; subst; intuition.
  - intros [H|H]; [auto|]; destruct (IH H); auto.
Qed.

Lemma NoDup_dict_set {A} k (v : A) l :
  NoDup (map fst l) -> NoDup (map fst (dict_set k v l)).
Proof.
  induction l as [|[k0 v0] l IH]; intros H; simpl; [repeat constructor; auto|].
  inversion H as [|? ? Hk Hn]; subst.
  destruct (String.eqb k k0) eqn:E; simpl.
  - apply String.eqb_eq in E; subst; constructor; auto.
  - constructor; [|auto].
    intros Hin; destruct (in_keys_dict_set _ _ _ _ Hin) as [->|Hin'].
    + rewrite String.eqb_refl in E; discriminate.
    + contradiction.
Qed.

Lemma in_keys_dict_del {A} k k' (l : list (string * A)) :
  In k' (map fst (dict_del k l)) -> In k' (map fst l).
Proof.
  induction l as [|[k0 v0] l IH]; simpl; [auto|].
  destruct (String.eqb k k0); simpl; intuition.
Qed.

Lemma Forall_dict_del {A} (P : string * A -> Prop) k l :
  Forall P l -> Forall P (dict_del k l).
Proof.
  induction l as [|[k0 v0] l IH]; intros H; simpl; [auto|].
  inversion H; subst; destruct (String.eqb k k0); auto.
Qed.

Lemma NoDup_dict_del {A} k (l : list (string * A)) :
  NoDup (map fst l) -> NoDup (map fst (dict_del k l)).
Proof.
  induction l as [|[k0 v0] l IH]; intros H; simpl; [constructor|].
  inversion H as [|? ? Hk Hn]; subst.
  destruct (String.eqb k k0); simpl; [auto|].
  constructor; [|auto]; intros Hin; apply Hk; eapply in_keys_dict_del; eauto.
Qed.

Lemma trunc_obj_wf c o : obj_wf c o -> obj_wf c (trunc_obj o).
Proof.
  unfold obj_wf, trunc_obj, valid_dt, trunc_dt; cbn; intuition lia.
Qed.

Lemma file_of_trunc data : file_of (trunc_data data) = file_of data.
Proof.
  unfold file_of, trunc_data; rewrite map_map; f_equal.
  apply map_ext; intros [k o]; reflexivity.
Qed.

Lemma save_eq o now data file :
  save o now (mkstore data file)
  = let o' := mkobj (id o) (created_at o) now (attrs o) in
    let data' := dict_set (id o) o' data in
    match json_dump (file_of data') with
    | Ok f => (Ok o', mkstore data' (Some f))
    | Err e => (Err e, mkstore data' file)
    end.
Proof.
  unfold save, save_to_file, bind, modify, gets, lift, ret; cbn.
  destruct (json_dump _); reflexivity.
Qed.

Lemma store_inv_step c st st' :
  class_wf c -> store_inv c st -> store_step c st st' -> store_inv c st'.
Proof.
  intros Hc Hi Hs.
  destruct Hs as [o now st r st' Ho Hv Hy E|o st r st' E|fresh now st r st' E];
    destruct st as [data file]; destruct Hi as (Hk & Hn & Hw & Hf); cbn [st_data st_file] in Hk, Hn, Hw, Hf.
  - rewrite save_eq in E.
    set (o' := mkobj (id o) (created_at o) now (attrs o)) in E.
    assert (Hw' : Forall (fun kv => obj_wf c (snd kv)) (dict_set (id o) o' data)).
    { apply Forall_dict_set; [exact Hw|].
      destruct Ho as (H1 & H2 & H3 & H4 & _); exact (conj H1 (conj H2 (conj H3 (conj H4 (conj Hv Hy))))). }
    unfold json_dump in E; rewrite (json_ok_file_of c _ Hw') in E.
    injection E as <- <-; unfold store_inv; cbn; repeat split.
    + apply Forall_dict_set; [exact Hk|reflexivity].
    + now apply NoDup_dict_set.
    + exact Hw'.
    + now right.
  - unfold remove, bind, gets in E; cbn in E.
    destruct (lookup (id o) data).
    + unfold modify, save_to_file, bind, gets, lift in E; cbn in E.
      assert (Hw' : Forall (fun kv => obj_wf c (snd kv)) (dict_del (id o) data))
        by now apply Forall_dict_del.
      unfold json_dump in E; rewrite (json_ok_file_of c _ Hw') in E.
      injection E as <- <-; unfold store_inv; cbn; repeat split.
      * now apply Forall_dict_del.
      * now apply NoDup_dict_del.
      * exact Hw'.
      * now right.
    + unfold ret in E; injection E as <- <-; unfold store_inv; cbn; auto.
  - destruct Hf as [[-> ->] | ->].
    + unfold load_from_file, bind, modify, gets, ret in E; cbn in E.
      injection E as <- <-; unfold store_inv; cbn; repeat split; auto; constructor.
    + rewrite (load_file_of c fresh now data data Hc Hn Hw) in E.
      injection E as <- <-; unfold store_inv; cbn; repeat split.
      * unfold keys_are_ids, trunc_data; apply Forall_map.
        eapply Forall_impl; [|exact Hk]; intros [k v]; cbn; auto.
      * unfold trunc_data; rewrite map_map; exact Hn.
      * unfold trunc_data; apply Forall_map.
        eapply Forall_impl; [|exact Hw]; intros [k v]; cbn; apply trunc_obj_wf.
      * right; now rewrite file_of_trunc.
Qed.

Lemma reachable_inv c st : class_wf c -> reachable c st -> store_inv c st.
Proof.
  intros Hc H; induction H as [|st st' _ IH Hs].
  - unfold store_inv; cbn; repeat split; auto; constructor.
  - eapply store_inv_step; eauto.
Qed.

Lemma save_stored o now st :
  lookup (id o) (st_data (snd (save o now st)))
  = Some (mkobj (id o) (created_at o) now (attrs o))
  /\ (forall o', fst (save o now st) = Ok o' ->
        o' = mkobj (id o) (created_at o) now (attrs o)).
Proof.
  destruct st as [data file]; rewrite save_eq; cbn zeta.
  destruct (json_dump _); cbn [fst snd st_data]; split;
    try apply lookup_dict_set_eq; intros o' E; congruence.
Qed.

(** Two saves of one entity at clock readings [t1] and [t2]. *)
Definition two_saves_monotone (o : obj) (t1 t2 : datetime) (st : store) : Prop :=
  forall o1 st1 o2 st2,
    save o t1 st = (Ok o1, st1) -> save o1 t2 st1 = (Ok o2, st2) ->
    dt_le (updated_at o1) (updated_at o2) = true.

(** Monotonicity for every clock, as the claim states it. *)
Definition saves_never_decrease : Prop :=
  forall o t1 t2 st, two_saves_monotone o t1 t2 st.

Definition t_2026_earlier : datetime := mkdt 2026 10 14 9 30 14 0.

(** A [User] saved into the empty store. *)
Definition store_saved : store := snd (save user_ab t_2026_later empty_store).

Lemma obj_wf_user_ab : obj_wf User user_ab.
Proof.
  unfold obj_wf, valid_dt; cbn; repeat split; try lia; repeat constructor.
Qed.

(** C7: [save] keeps [id] and stores the entity with [updated_at] set to
    the clock reading [now]; so across two saves the stored [updated_at]
    does not decrease when the clock does not go back; and every store
    reachable by [save], [remove] and [load_from_file] keeps each entity
    under its own id. *)
Theorem save_keeps_id_refreshes_updated_at (c : pyclass) (Hc : class_wf c) :
  (forall o now st o' st',
     save o now st = (Ok o', st') ->
     id o' = id o /\ updated_at o' = now
     /\ lookup (id o) (st_data st') = Some o')
  /\ (forall o t1 t2 st, dt_le t1 t2 = true -> two_saves_monotone o t1 t2 st)
  /\ (forall st, reachable c st -> keys_are_ids (st_data st)).
Proof.
  split; [|split].
  - intros o now st o' st' E.
    destruct (save_stored o now st) as [Hl Hr].
    rewrite E in Hl, Hr; cbn in Hl, Hr.
    specialize (Hr o' eq_refl); subst o'; cbn; auto.
  - intros o t1 t2 st Hle o1 st1 o2 st2 E1 E2.
    destruct (save_stored o t1 st) as [_ H1].
    destruct (save_stored o1 t2 st1) as [_ H2].
    rewrite E1 in H1; rewrite E2 in H2.
    specialize (H1 o1 eq_refl); specialize (H2 o2 eq_refl).
    rewrite H2; cbn; rewrite H1; cbn; exact Hle.
  - intros st H; apply (reachable_inv c st Hc H).
Qed.

Lemma save_keeps_id_refreshes_updated_at_witness :
  keys_are_ids (st_data store_saved).
Proof.
  refine (proj2 (proj2 (save_keeps_id_refreshes_updated_at User class_wf_User))
            store_saved _).
  apply (reach_step User empty_store).
  - apply reach_init.
  - apply (step_save User user_ab t_2026_later empty_store
             (fst (save user_ab t_2026_later empty_store))).
    + exact obj_wf_user_ab.
    + unfold valid_dt; cbn; lia.
    + cbn; lia.
    + reflexivity.
Defined.

(** C7, as stated: [updated_at] never decreases across saves for every
    clock.  [utcnow()] is a wall clock; a reading that steps back (here
    one second) makes the second save decrease it. *)
Lemma save_clock_steps_back : ~ saves_never_decrease.
Proof.
  intros H.
  specialize (H user_ab t_2026_later t_2026_earlier empty_store).
  set (p1 := save user_ab t_2026_later empty_store).
  set (o1 := match fst p1 with Ok o => o | Err _ => user_ab end).
  set (p2 := save o1 t_2026_earlier (snd p1)).
  set (o2 := match fst p2 with Ok o => o | Err _ => user_ab end).
  assert (E1 : save user_ab t_2026_later empty_store = (Ok o1, snd p1))
    by (vm_compute; reflexivity).
  assert (E2 : save o1 t_2026_earlier (snd p1) = (Ok o2, snd p2))
    by (vm_compute; reflexivity).
  specialize (H o1 (snd p1) o2 (snd p2) E1 E2).
  vm_compute in H; discriminate H.
Qed.

(** ** The frame of [PUT /users/:id] *)

Definition frame_rel (now : datetime) (u w : obj) : Prop :=
  id w = id u /\ created_at w = created_at u
  /\ (updated_at w = updated_at u \/ updated_at w = now)
  /\ forall name, name <> "first_name" -> name <> "last_name" ->
       lookup name (attrs w) = lookup name (attrs u).

Definition frame_at (user_id : string) (now : datetime) (u : obj) (st : store) : Prop :=
  exists w, lookup user_id (st_data st) = Some w /\ frame_rel now u w.

(** The user after [set_if_in] on a dict body. *)
Definition set_from (d : list (string * pyval)) (name : string) (w : obj) : obj :=
  match lookup name d with Some v => set_attr name v w | None => w end.

Lemma bind_ok {A B} (m : M A) (k : A -> M B) st a st' :
  m st = (Ok a, st') -> bind m k st = k a st'.
Proof. intros E; unfold bind; now rewrite E. Qed.

Lemma bind_err {A B} (m : M A) (k : A -> M B) st e st' :
  m st = (Err e, st') -> bind m k st = (Err e, st').
Proof. intros E; unfold bind; now rewrite E. Qed.

Lemma dispatch_snd m st : snd (dispatch m st) = snd (m st).
Proof.
  unfold dispatch, try_catch; destruct (m st) as [[a|e] st']; [reflexivity|].
  destruct e as [| | |z|]; try reflexivity.
  repeat match goal with |- context [match ?p with _ => _ end] => is_var p; destruct p end;
    reflexivity.
Qed.

Lemma try_catch_400_snd m st : snd (try_catch m error_400 st) = snd (m st).
Proof. unfold try_catch; destruct (m st) as [[a|e] st']; reflexivity. Qed.

Lemma frame_rel_refl now u : frame_rel now u u.
Proof. unfold frame_rel; auto. Qed.

Lemma frame_rel_set_attr now u w name v :
  (name = "first_name" \/ name = "last_name") ->
  frame_rel now u w -> frame_rel now u (set_attr name v w).
Proof.
  intros Hn (H1 & H2 & H3 & H4); unfold frame_rel, set_attr; cbn; repeat split; auto.
  intros k Hf Hl; rewrite lookup_dict_set_neq; [auto|].
  destruct Hn as [->| ->]; auto.
Qed.

Lemma mutate_eq key w name v st :
  mutate key w name v st
  = (Ok (set_attr name v w),
     set_data (dict_update key (set_attr name v w) (st_data st)) st).
Proof. reflexivity. Qed.

Lemma set_if_in_frame user_id now u rj name w st :
  (name = "first_name" \/ name = "last_name") ->
  lookup user_id (st_data st) = Some w -> frame_rel now u w ->
  (forall w' st', set_if_in user_id rj name w st = (Ok w', st') ->
     lookup user_id (st_data st') = Some w' /\ frame_rel now u w')
  /\ frame_at user_id now u (snd (set_if_in user_id rj name w st)).
Proof.
  intros Hn Hl Hf.
  assert (Hm : forall v, lookup user_id (st_data (snd (mutate user_id w name v st)))
                         = Some (set_attr name v w)).
  { intros v; rewrite mutate_eq; cbn; apply lookup_dict_update_eq; congruence. }
  unfold set_if_in, bind, lift, ret.
  destruct (py_in name rj) as [[|]|e]; [| |split; [discriminate|exists w; auto]].
  - destruct (dict_get rj name) as [v|e]; [|split; [discriminate|exists w; auto]].
    split.
    + intros w' st' E; specialize (Hm v); rewrite E in Hm; rewrite mutate_eq in E.
      injection E as <- _; split; [exact Hm|]; now apply frame_rel_set_attr.
    + exists (set_attr name v w); split; [apply Hm|]; now apply frame_rel_set_attr.
  - split; [intros w' st' E; injection E as <- <-; auto|exists w; auto].
Qed.

Lemma set_if_in_dict user_id d name w st :
  lookup user_id (st_data st) = Some w ->
  exists st', set_if_in user_id (PDict d) name w st = (Ok (set_from d name w), st')
    /\ lookup user_id (st_data st') = Some (set_from d name w).
Proof.
  intros Hl; unfold set_if_in, set_from, bind, lift, ret, py_in, dict_get, kwargs_get.
  destruct (lookup name d) as [v|] eqn:E; cbn -[mutate]; [|eauto].
  rewrite mutate_eq.
  eexists; split; [reflexivity|]; cbn; apply lookup_dict_update_eq; congruence.
Qed.

Lemma save_frame user_id now u w st :
  id u = user_id -> lookup user_id (st_data st) = Some w -> frame_rel now u w ->
  frame_at user_id now u (snd (save w now st)).
Proof.
  intros Hid Hl (H1 & H2 & H3 & H4).
  destruct (save_stored w now st) as [Hs _].
  exists (mkobj (id w) (created_at w) now (attrs w)); split.
  - rewrite <- Hs, H1, Hid; reflexivity.
  - unfold frame_rel; cbn; auto.
Qed.

Lemma get_user_by_id_found user_id u st :
  lookup user_id (st_data st) = Some u -> get_user_by_id user_id st = (Ok u, st).
Proof. intros H; unfold get_user_by_id, get, gets, bind, ret; cbn; now rewrite H. Qed.

Lemma update_user_frame_at user_id u rj now st :
  lookup user_id (st_data st) = Some u -> id u = user_id ->
  frame_at user_id now u (snd (update_user user_id rj now st)).
Proof.
  intros Hl Hid; unfold update_user.
  rewrite dispatch_snd, (bind_ok _ _ _ _ _ (get_user_by_id_found _ _ _ Hl)),
    try_catch_400_snd.
  assert (H0 : frame_at user_id now u st) by (exists u; auto using frame_rel_refl).
  destruct rj as [a|e]; [|rewrite (bind_err _ _ st e st) by reflexivity; exact H0].
  rewrite (bind_ok _ _ st a st) by reflexivity; cbv beta.
  destruct (negb (truthy a)); [exact H0|].
  destruct (set_if_in_frame user_id now u a "first_name" u st) as [K1 F1];
    auto using frame_rel_refl.
  destruct (set_if_in user_id a "first_name" u st) as [[w1|e] st1] eqn:E1;
    [|rewrite (bind_err _ _ _ _ _ E1); exact F1].
  rewrite (bind_ok _ _ _ _ _ E1).
  destruct (K1 w1 st1 eq_refl) as [Hl1 Hf1].
  destruct (set_if_in_frame user_id now u a "last_name" w1 st1) as [K2 F2]; auto.
  destruct (set_if_in user_id a "last_name" w1 st1) as [[w2|e] st2] eqn:E2;
    [|rewrite (bind_err _ _ _ _ _ E2); exact F2].
  rewrite (bind_ok _ _ _ _ _ E2).
  destruct (K2 w2 st2 eq_refl) as [Hl2 Hf2].
  pose proof (save_frame user_id now u w2 st2 Hid Hl2 Hf2) as Fs.
  destruct (save w2 now st2) as [[w3|e] st3] eqn:E3.
  - rewrite (bind_ok _ _ _ _ _ E3); exact Fs.
  - rewrite (bind_err _ _ _ _ _ E3); exact Fs.
Qed.

Lemma set_from_id d name w : id (set_from d name w) = id w.
Proof. unfold set_from; destruct (lookup name d); reflexivity. Qed.

Lemma set_from_same d name w :
  lookup name (attrs (set_from d name w))
  = match lookup name d with Some v => Some v | None => lookup name (attrs w) end.
Proof.
  unfold set_from; destruct (lookup name d); [apply lookup_dict_set_eq|reflexivity].
Qed.

Lemma set_from_other d name name' w :
  name' <> name -> lookup name' (attrs (set_from d name w)) = lookup name' (attrs w).
Proof.
  intros Hn; unfold set_from; destruct (lookup name d); [|reflexivity].
  now apply lookup_dict_set_neq.
Qed.

Lemma first_last_neq : "first_name" <> "last_name".
Proof. discriminate. Qed.

(** C10: [PUT /users/:id] on a stored user [u] leaves the stored user
    with the same id, created_at and every attribute other than
    first_name and last_name (email and the _password hash among them),
    with updated_at either unchanged or the clock reading; for a
    non-empty dict body the entity is saved at [now] and a name absent
    from the body keeps its previous value, a present one takes the
    body's value. *)
Theorem update_user_changes_only_names (user_id : string) (u : obj)
    (rj : res pyval) (now : datetime) (st : store) :
  lookup user_id (st_data st) = Some u -> id u = user_id ->
  frame_at user_id now u (snd (update_user user_id rj now st))
  /\ (forall d, rj = Ok (PDict d) -> d <> [] ->
        exists u', lookup user_id (st_data (snd (update_user user_id rj now st))) = Some u'
          /\ updated_at u' = now
          /\ lookup "first_name" (attrs u')
             = match lookup "first_name" d with
               | Some v => Some v | None => lookup "first_name" (attrs u) end
          /\ lookup "last_name" (attrs u')
             = match lookup "last_name" d with
               | Some v => Some v | None => lookup "last_name" (attrs u) end).
Proof.
  intros Hl Hid; split; [now apply update_user_frame_at|].
  intros d -> Hd; unfold update_user.
  rewrite dispatch_snd, (bind_ok _ _ _ _ _ (get_user_by_id_found _ _ _ Hl)),
    try_catch_400_snd.
  rewrite (bind_ok _ _ st (PDict d) st) by reflexivity; cbv beta.
  assert (Ht : negb (truthy (PDict d)) = false) by (destruct d; [contradiction|reflexivity]).
  rewrite Ht.
  destruct (set_if_in_dict user_id d "first_name" u st Hl) as [st1 [E1 Hl1]].
  rewrite (bind_ok _ _ _ _ _ E1).
  set (w1 := set_from d "first_name" u) in *.
  destruct (set_if_in_dict user_id d "last_name" w1 st1 Hl1) as [st2 [E2 Hl2]].
  rewrite (bind_ok _ _ _ _ _ E2).
  set (w2 := set_from d "last_name" w1) in *.
  destruct (save_stored w2 now st2) as [Hs _].
  destruct (save w2 now st2) as [[w3|e] st3] eqn:E3;
    [rewrite (bind_ok _ _ _ _ _ E3)|rewrite (bind_err _ _ _ _ _ E3)];
    cbn [snd] in Hs |- *;
    exists (mkobj (id w2) (created_at w2) now (attrs w2));
    (split; [rewrite <- Hs; unfold w2, w1; now rewrite !set_from_id, Hid|]);
    cbn [attrs updated_at]; (split; [reflexivity|]); unfold w2, w1;
    rewrite set_from_other, set_from_same, set_from_same, set_from_other;
    auto using first_last_neq.
Qed.

Definition body_bob : res pyval := Ok (PDict [("first_name", PStr "Bob")]).

Lemma update_user_changes_only_names_witness :
  frame_at "u1" t_2026_later user_ab
    (snd (update_user "u1" body_bob t_2026_later store_ab)).
Proof.
  exact (proj1 (update_user_changes_only_names "u1" user_ab body_bob t_2026_later
                  store_ab eq_refl eq_refl)).
Defined.

(** * Further operations of the store and the users views *)

(** [Base.count()] (0x02). *)
Definition count : M Z := gets (fun st => Z.of_nat (length (st_data st))).

(** [DELETE /users/:id]. *)
Definition delete_user (user_id : string) : M response :=
  dispatch (
    user <- get_user_by_id user_id ;;
    remove user ;;;
    ret (Resp 200 (PDict []))).

(** The users views behind the before-request hook: an abort in
    [handle_auth] is answered by the error handlers; otherwise the view runs
    with [request.current_user] ([None] when the hook returned before
    setting it). *)
Definition serve (auth : option auth_strategy) (r : request)
    (view : option (option obj) -> M response) : M response :=
  match handle_auth auth r with
  | Proceed => view None
  | ProceedAs u => view (Some (Some u))
  | Abort code => dispatch (raise (HTTPError code))
  end.

Definition is_some {A} (o : option A) : bool :=
  match o with Some _ => true | None => false end.

Definition error_body (msg : string) : pyval := PDict [("error", PStr msg)].

Lemma length_dict_set {A} k (v : A) l :
  length (dict_set k v l) = (length l + if is_some (lookup k l) then 0 else 1)%nat.
Proof.
  induction l as [|[k' v'] l IH]; simpl; [reflexivity|].
  destruct (String.eqb k k'); simpl; [lia|rewrite IH; reflexivity].
Qed.

Lemma keys_dict_set {A} k (v : A) l :
  map fst (dict_set k v l)
  = if is_some (lookup k l) then map fst l else map fst l ++ [k].
Proof.
  induction l as [|[k' v'] l IH]; simpl; [reflexivity|].
  destruct (String.eqb k k') eqn:E; simpl.
  - apply String.eqb_eq in E; now subst.
  - rewrite IH; destruct (is_some (lookup k l)); reflexivity.
Qed.

Lemma lookup_none_not_in {A} k (l : list (string * A)) :
  ~ In k (map fst l) -> lookup k l = None.
Proof.
  induction l as [|[k' v'] l IH]; simpl; intros H; [reflexivity|].
  destruct (String.eqb k k') eqn:E.
  - apply String.eqb_eq in E; subst; tauto.
  - apply IH; tauto.
Qed.

Lemma lookup_dict_del_eq {A} k (l : list (string * A)) :
  NoDup (map fst l) -> lookup k (dict_del k l) = None.
Proof.
  induction l as [|[k' v'] l IH]; simpl; intros H; [reflexivity|].
  inversion H as [|? ? Hk Hn]; subst.
  destruct (String.eqb k k') eqn:E.
  - apply String.eqb_eq in E; subst; now apply lookup_none_not_in.
  - simpl; rewrite E; auto.
Qed.

Lemma lookup_dict_del_neq {A} k k' (l : list (string * A)) :
  k' <> k -> lookup k' (dict_del k l) = lookup k' l.
Proof.
  intros Hn; induction l as [|[k0 v0] l IH]; simpl; [reflexivity|].
  destruct (String.eqb k k0) eqn:E; simpl.
  - apply String.eqb_eq in E; subst k0.
    apply String.eqb_neq in Hn; now rewrite Hn.
  - now rewrite IH.
Qed.

Lemma length_dict_del {A} k (l : list (string * A)) :
  length (dict_del k l) = (length l - if is_some (lookup k l) then 1 else 0)%nat.
Proof.
  induction l as [|[k' v'] l IH]; simpl; [reflexivity|].
  destruct (String.eqb k k'); simpl; [lia|].
  rewrite IH; destruct (is_some (lookup k l)) eqn:E; [|lia].
  destruct l as [|[k1 v1] l]; [discriminate|simpl; lia].
Qed.

Lemma dict_del_dict_set_absent {A} k (v : A) l :
  lookup k l = None -> dict_del k (dict_set k v l) = l.
Proof.
  induction l as [|[k' v'] l IH]; simpl; intros H.
  - now rewrite String.eqb_refl.
  - destruct (String.eqb k k') eqn:E; [discriminate|simpl; rewrite E; f_equal; auto].
Qed.

Lemma remove_eq o data file :
  remove o (mkstore data file)
  = match lookup (id o) data with
    | Some _ =>
        match json_dump (file_of (dict_del (id o) data)) with
        | Ok f => (Ok tt, mkstore (dict_del (id o) data) (Some f))
        | Err e => (Err e, mkstore (dict_del (id o) data) file)
        end
    | None => (Ok tt, mkstore data file)
    end.
Proof.
  unfold remove, save_to_file, bind, modify, gets, lift, ret; cbn.
  destruct (lookup (id o) data); [|reflexivity].
  destruct (json_dump _); reflexivity.
Qed.

Lemma remove_data o st :
  st_data (snd (remove o st)) = dict_del (id o) (st_data st).
Proof.
  destruct st as [data file]; rewrite remove_eq; cbn [st_data].
  destruct (lookup (id o) data) eqn:E.
  - destruct (json_dump _); reflexivity.
  - induction data as [|[k v] data IH]; [reflexivity|].
    cbn in E |- *; destruct (String.eqb (id o) k); [discriminate|].
    now rewrite <- IH.
Qed.

Lemma save_data o now st :
  st_data (snd (save o now st))
  = dict_set (id o) (mkobj (id o) (created_at o) now (attrs o)) (st_data st).
Proof.
  destruct st as [data file]; rewrite save_eq; cbn zeta.
  destruct (json_dump _); reflexivity.
Qed.

(** Extra: [Base.count()] after [save] is one more when the id was not
    stored and the same when the save overwrote a stored object (also
    when writing the file failed: [DATA] is updated first). *)
Theorem count_after_save (o : obj) (now : datetime) (st : store) :
  fst (count (snd (save o now st)))
  = Ok (Z.of_nat (length (st_data st))
        + if is_some (lookup (id o) (st_data st)) then 0 else 1).
Proof.
  unfold count, gets; cbn [fst]; rewrite save_data, length_dict_set.
  destruct (is_some _); f_equal; lia.
Qed.

(** Extra: [save] touches only its own entry: every other id maps to what
    it mapped to, and the order of the ids (that of [all()]) is kept when
    the id was stored, the new id going last otherwise. *)
Theorem save_only_touches_its_entry (o : obj) (now : datetime) (st : store) :
  (forall k, k <> id o ->
     fst (get k (snd (save o now st))) = fst (get k st))
  /\ map fst (st_data (snd (save o now st)))
     = if is_some (lookup (id o) (st_data st)) then map fst (st_data st)
       else map fst (st_data st) ++ [id o].
Proof.
  split.
  - intros k Hk; unfold get, gets; cbn [fst]; rewrite save_data.
    f_equal; now apply lookup_dict_set_neq.
  - rewrite save_data; apply keys_dict_set.
Qed.

(** Extra: [remove] on a store whose ids are distinct makes [get] of the
    object's id return [None], leaves every other id and decreases
    [count()] by one when the id was stored; when it was not, [remove]
    changes nothing, the file included. *)
Theorem remove_deletes_only_its_entry (o : obj) (st : store) :
  NoDup (map fst (st_data st)) ->
  fst (get (id o) (snd (remove o st))) = Ok None
  /\ (forall k, k <> id o -> fst (get k (snd (remove o st))) = fst (get k st))
  /\ fst (count (snd (remove o st)))
     = Ok (Z.of_nat (length (st_data st))
           - if is_some (lookup (id o) (st_data st)) then 1 else 0)
  /\ (lookup (id o) (st_data st) = None -> remove o st = (Ok tt, st)).
Proof.
  intros Hn; unfold get, count, gets; cbn [fst]; rewrite !remove_data.
  repeat split.
  - f_equal; now apply lookup_dict_del_eq.
  - intros k Hk; f_equal; now apply lookup_dict_del_neq.
  - rewrite length_dict_del; f_equal.
    destruct (lookup (id o) (st_data st)) eqn:E; cbn [is_some]; [|lia].
    destruct (st_data st) as [|kv l]; [discriminate|cbn [length]; lia].
  - intros E; destruct st as [data file]; rewrite remove_eq; cbn in E; now rewrite E.
Qed.

(** Extra: saving an object whose id is not stored and then removing it
    gives back the in-memory map as it was. *)
Theorem save_then_remove_restores (o o' : obj) (now : datetime) (st st1 : store) :
  lookup (id o) (st_data st) = None ->
  save o now st = (Ok o', st1) ->
  st_data (snd (remove o' st1)) = st_data st.
Proof.
  intros Hn Hs.
  destruct (save_stored o now st) as [_ Ho]; rewrite Hs in Ho.
  specialize (Ho o' eq_refl); subst o'.
  pose proof (save_data o now st) as Hd; rewrite Hs in Hd; cbn [snd] in Hd.
  rewrite remove_data, Hd; cbn [id]; now apply dict_del_dict_set_absent.
Qed.

Definition user_cd : obj :=
  mkobj "u2" t_2026 t_2026
    [("email", PStr "c@d.com"); ("_password", PNone);
     ("first_name", PNone); ("last_name", PNone)].

Lemma save_then_remove_restores_witness :
  st_data (snd (remove (mkobj "u2" t_2026 t_2026_later (attrs user_cd))
                  (snd (save user_cd t_2026_later store_ab))))
  = st_data store_ab.
Proof.
  apply (save_then_remove_restores user_cd _ t_2026_later store_ab).
  - reflexivity.
  - vm_compute; reflexivity.
Defined.

Lemma remove_deletes_only_its_entry_witness :
  fst (get "u1" (snd (remove user_ab store_ab))) = Ok None.
Proof.
  apply (remove_deletes_only_its_entry user_ab store_ab).
  cbn; constructor; [intros []|constructor].
Defined.

Lemma get_user_by_id_missing user_id st :
  lookup user_id (st_data st) = None ->
  get_user_by_id user_id st = (Err (HTTPError 404), st).
Proof. intros H; unfold get_user_by_id, get, gets, bind, raise; cbn; now rewrite H. Qed.

Lemma dispatch_404 (m : M response) st :
  m st = (Err (HTTPError 404), st) ->
  dispatch m st = (Ok (Resp 404 (error_body "Not found")), st).
Proof. intros E; unfold dispatch, try_catch; now rewrite E. Qed.

(** Extra: [DELETE /users/:id] on an id that is not stored answers 404
    and changes nothing; on a stored user (ids distinct, objects
    well formed) it answers 200 with an empty dict, the id is no longer
    found and every other stored user is kept. *)
Theorem delete_user_behaviour (user_id : string) (st : store) :
  (lookup user_id (st_data st) = None ->
   delete_user user_id st = (Ok (Resp 404 (error_body "Not found")), st))
  /\ (forall u, lookup user_id (st_data st) = Some u -> id u = user_id ->
      NoDup (map fst (st_data st)) ->
      Forall (fun kv => obj_wf User (snd kv)) (st_data st) ->
      fst (delete_user user_id st) = Ok (Resp 200 (PDict []))
      /\ lookup user_id (st_data (snd (delete_user user_id st))) = None
      /\ forall k, k <> user_id ->
           lookup k (st_data (snd (delete_user user_id st))) = lookup k (st_data st)).
Proof.
  split.
  - intros H; apply dispatch_404; unfold delete_user.
    now rewrite (bind_err _ _ _ _ _ (get_user_by_id_missing _ _ H)).
  - intros u Hl Hid Hn Hw; destruct st as [data file]; cbn in Hl, Hn, Hw.
    assert (E : delete_user user_id (mkstore data file)
                = (Ok (Resp 200 (PDict [])),
                   mkstore (dict_del user_id data) (Some (file_of (dict_del user_id data))))).
    { unfold delete_user, dispatch, try_catch.
      rewrite (bind_ok _ _ _ _ _ (get_user_by_id_found user_id u (mkstore data file) Hl)).
      assert (Er : remove u (mkstore data file)
                   = (Ok tt, mkstore (dict_del user_id data)
                                     (Some (file_of (dict_del user_id data))))).
      { rewrite remove_eq, Hid, Hl.
        unfold json_dump; rewrite (json_ok_file_of User) by now apply Forall_dict_del.
        reflexivity. }
      now rewrite (bind_ok _ _ _ _ _ Er). }
    rewrite E; cbn [fst snd st_data]; repeat split.
    + now apply lookup_dict_del_eq.
    + intros k Hk; now apply lookup_dict_del_neq.
Qed.

Lemma delete_user_behaviour_witness :
  lookup "u1" (st_data (snd (delete_user "u1" store_ab))) = None.
Proof.
  refine (proj1 (proj2 (proj2 (delete_user_behaviour "u1" store_ab) user_ab
                              eq_refl eq_refl _ _))).
  - cbn; constructor; [intros []|constructor].
  - cbn; constructor; [exact obj_wf_user_ab|constructor].
Defined.

(** Extra: [PUT /users/:id] answers 404 and changes nothing when the id is
    not stored, and answers 400 "Wrong format" and changes nothing when
    the body of a stored user's update is falsy (null, empty dict, ...). *)
Theorem update_user_errors (user_id : string) (rj : res pyval) (now : datetime)
    (st : store) :
  (lookup user_id (st_data st) = None ->
   update_user user_id rj now st = (Ok (Resp 404 (error_body "Not found")), st))
  /\ (forall u v, lookup user_id (st_data st) = Some u -> rj = Ok v -> truthy v = false ->
      update_user user_id rj now st = (Ok (Resp 400 (error_body "Wrong format")), st)).
Proof.
  split.
  - intros H; apply dispatch_404; unfold update_user.
    now rewrite (bind_err _ _ _ _ _ (get_user_by_id_missing _ _ H)).
  - intros u v Hl -> Hv; unfold update_user, dispatch, try_catch at 1.
    rewrite (bind_ok _ _ _ _ _ (get_user_by_id_found user_id u _ Hl)).
    unfold try_catch, bind at 1, lift; cbv beta iota; rewrite Hv; reflexivity.
Qed.

Lemma update_user_errors_witness :
  update_user "u1" (Ok (PDict [])) t_2026_later store_ab
  = (Ok (Resp 400 (error_body "Wrong format")), store_ab).
Proof.
  exact (proj2 (update_user_errors "u1" (Ok (PDict [])) t_2026_later store_ab)
           user_ab (PDict []) eq_refl eq_refl eq_refl).
Defined.

(** Extra: [POST /users] answers 400 and changes nothing, with "Wrong
    format" for a falsy body, "email missing" for a dict body without a
    truthy email, and "password missing" for one with a truthy email and
    no truthy password. *)
Theorem create_user_validation (fresh : string) (now : datetime) (st : store) :
  (forall v, truthy v = false ->
     create_user (Ok v) fresh now st = (Ok (Resp 400 (error_body "Wrong format")), st))
  /\ (forall d, d <> [] -> truthy (kwargs_get "email" d) = false ->
     create_user (Ok (PDict d)) fresh now st
     = (Ok (Resp 400 (error_body "email missing")), st))
  /\ (forall d, truthy (kwargs_get "email" d) = true ->
     truthy (kwargs_get "password" d) = false ->
     create_user (Ok (PDict d)) fresh now st
     = (Ok (Resp 400 (error_body "password missing")), st)).
Proof.
  assert (Hd : forall d, truthy (kwargs_get "email" d) = true -> d <> []).
  { intros [|kv d] H; [discriminate|discriminate]. }
  repeat split.
  - intros v Hv; unfold create_user, dispatch, try_catch, bind, lift; rewrite Hv; reflexivity.
  - intros d Hn He; unfold create_user, dispatch, try_catch, bind, lift.
    replace (negb (truthy (PDict d))) with false by (destruct d; [contradiction|reflexivity]).
    cbn [dict_get]; rewrite He; reflexivity.
  - intros d He Hp; unfold create_user, dispatch, try_catch, bind, lift.
    replace (negb (truthy (PDict d))) with false
      by (destruct d; [contradiction (Hd [] He)|]; reflexivity).
    cbn [dict_get]; rewrite He, Hp; reflexivity.
Qed.

Lemma create_user_validation_witness :
  create_user (Ok (PDict [("email", PStr "a@b.com")])) "u9" t_2026 store_ab
  = (Ok (Resp 400 (error_body "password missing")), store_ab).
Proof.
  exact (proj2 (proj2 (create_user_validation "u9" t_2026 store_ab))
           [("email", PStr "a@b.com")] eq_refl eq_refl).
Defined.

(** Extra: [GET /api/v1/users/me] behind the hook: 500 when no strategy is
    configured or the path is excluded ([request.current_user] is never
    set), the hook's 401 or 403 when it aborts, and otherwise 200 with the
    public JSON of the user the strategy resolved; the store is unchanged. *)
Theorem users_me_through_gate (auth : option auth_strategy) (r : request)
    (st : store) :
  serve auth r (fun cu => view_one_user cu "me") st
  = (Ok (match handle_auth auth r with
         | Proceed => Resp 500 PNone
         | ProceedAs u => Resp 200 (PDict (to_json false u))
         | Abort 401 => Resp 401 (error_body "Unauthorized")
         | Abort 403 => Resp 403 (error_body "Forbidden")
         | Abort 404 => Resp 404 (error_body "Not found")
         | Abort _ => Resp 500 PNone
         end), st).
Proof.
  unfold serve; destruct (handle_auth auth r) as [|u|code]; [reflexivity|reflexivity|].
  unfold dispatch, try_catch, raise.
  destruct code as [|p|p]; try reflexivity;
    repeat match goal with |- context [match ?p with _ => _ end] => is_var p; destruct p end;
    reflexivity.
Qed.

(** * The 0x01 versions of [Base] and [handle_auth] *)

(** 0x01 [Base.search]: [if not attributes] returns every stored object,
    otherwise the same filter as 0x02 ([DATA.get(cls, {})] reads the class
    map, which the store always has). *)
Definition search_01 (c : pyclass) (attributes : list (string * pyval))
  : M (list obj) :=
  data <- gets st_data ;;
  if negb (truthy (PDict attributes)) then ret (map snd data)
  else lift (filter_res (fun o => all_match c o attributes) (map snd data)).



Definition excluded_paths_01 : list string :=
  ["/api/v1/status/"; "/api/v1/unauthorized/"; "/api/v1/forbidden/"].

(** 0x01 [handle_auth]: no session cookie, and [request.current_user] is
    not set. *)
Definition handle_auth_01 (auth : option auth_strategy) (r : request) : gate :=
  match auth with
  | None => Proceed
  | Some a =>
      if negb (require_auth a (req_path r) excluded_paths_01) then Proceed
      else if negb (truthy (authorization_header a r)) then Abort 401
      else match current_user a r with
           | None => Abort 403
           | Some _ => Proceed
           end
  end.

(** The status code a hook outcome aborts with, if any. *)
Definition gate_code (g : gate) : option Z :=
  match g with Abort c => Some c | _ => None end.


(** Extra: once [DATA] holds a map for the class, the 0x01 and 0x02
    [Base.search] give the same result (objects or exception) for every
    content of that map and every attribute map, the shortcut of 0x01 for
    the empty map included. (Before [DATA] has an entry for the class,
    0x02 raises [KeyError] where 0x01 returns [[]]; the store below does
    not represent that state.) *)
Theorem search_01_eq_search (c : pyclass) (attributes : list (string * pyval))
    (st : store) :
  search_01 c attributes st = search c attributes st.
Proof.
  unfold search_01, search, bind, gets, ret, lift.
  destruct attributes as [|kv attributes]; cbn [truthy negb]; [|reflexivity].
  change (fun o => all_match c o []) with (fun _ : obj => @Ok bool true).
  now rewrite filter_res_true.
Qed.



(** Extra: when the strategy answers [require_auth] alike for the two
    excluded lists and the request carries no truthy session cookie, the
    0x01 hook aborts with the same codes (401, 403) as the 0x02 hook, and
    it never attaches a user to the request; with a falsy Authorization
    header it answers 401 whatever the cookie. *)
Theorem handle_auth_01_vs_02 (a : auth_strategy) (r : request) :
  (require_auth a (req_path r) excluded_paths_01
     = require_auth a (req_path r) excluded_list ->
   truthy (session_cookie a r) = false ->
   gate_code (handle_auth_01 (Some a) r) = gate_code (handle_auth (Some a) r))
  /\ (forall u, handle_auth_01 (Some a) r <> ProceedAs u)
  /\ (require_auth a (req_path r) excluded_paths_01 = true ->
      truthy (authorization_header a r) = false ->
      handle_auth_01 (Some a) r = Abort 401).
Proof.
  unfold handle_auth_01, handle_auth; repeat split.
  - intros Hr Hc; rewrite <- Hr, Hc; cbn [negb andb].
    destruct (require_auth a (req_path r) excluded_paths_01); [|reflexivity]; cbn.
    destruct (truthy (authorization_header a r)); [|reflexivity]; cbn.
    destruct (current_user a r); reflexivity.
  - intros u; destruct (require_auth _ _ _); [|discriminate]; cbn.
    destruct (truthy _); [|discriminate]; cbn.
    destruct (current_user a r); discriminate.
  - intros Hr Hh; now rewrite Hr, Hh.
Qed.

Definition strategy_cookie_only : auth_strategy :=
  mkauth spec_require_auth spec_authorization_header spec_session_cookie
         (fun _ => Some user_ab).

Definition req_cookie_only : request :=
  mkreq "/api/v1/users" [] [("_my_session_id", "s1")].

Lemma handle_auth_01_vs_02_witness :
  handle_auth_01 (Some strategy_cookie_only) req_cookie_only = Abort 401.
Proof.
  exact (proj2 (proj2 (handle_auth_01_vs_02 strategy_cookie_only req_cookie_only))
           eq_refl eq_refl).
Defined.

(** * 0x00-personal_data/filtered_logger.py: [filter_datum] *)

(** [filter_datum] is [re.sub(r'(f1|...|fn)=([^sep]+)', r'\1=' + redaction,
    message)].  The embedding reads the fields as literal alternatives,
    the separator as the set of characters of the negated class and the
    redaction as literal replacement text, which is what the regex engine
    does when they hold no metacharacters (the theorems below assume so). *)

Fixpoint in_str (c : ascii) (s : string) : bool :=
  match s with
  | EmptyString => false
  | String c' s' => Ascii.eqb c c' || in_str c s'
  end.

Fixpoint str_forall (p : ascii -> bool) (s : string) : bool :=
  match s with
  | EmptyString => true
  | String c s' => p c && str_forall p s'
  end.

(** [s] with the prefix [p] removed, if [s] starts with [p]. *)
Fixpoint strip_prefix (p s : string) : option string :=
  match p, s with
  | EmptyString, _ => Some s
  | String a p', String b s' => if Ascii.eqb a b then strip_prefix p' s' else None
  | String _ _, EmptyString => None
  end.

(** What follows the greedy run [[^sep]*]. *)
Fixpoint skip_nonsep (sep s : string) : string :=
  match s with
  | EmptyString => EmptyString
  | String c s' => if in_str c sep then s else skip_nonsep sep s'
  end.

(** The alternatives of the group [({"|".join(fields)})]: joining no field
    gives the empty pattern. *)
Definition alternatives (fields : list string) : list string :=
  match fields with [] => [""] | _ => fields end.

(** The alternative [f] followed by [=([^sep]+)] at the start of [s]: the
    text after the match. *)
Definition match_alt (sep f s : string) : option string :=
  match strip_prefix f s with
  | Some (String e (String c t)) =>
      if Ascii.eqb e "="%char && negb (in_str c sep) then Some (skip_nonsep sep t)
      else None
  | _ => None
  end.

(** The regex at the start of [s]: the alternatives are tried in order;
    the first that leads to a match is group 1. *)
Fixpoint match_at (sep : string) (alts : list string) (s : string)
  : option (string * string) :=
  match alts with
  | [] => None
  | f :: alts' =>
      match match_alt sep f s with
      | Some rest => Some (f, rest)
      | None => match_at sep alts' s
      end
  end.

(** [re.sub]: from the left, a match is replaced by [\1=redaction] and the
    scan goes on after it, otherwise one character is kept; [fuel] counts
    the steps (one per character is enough). *)
Fixpoint sub_scan (fuel : nat) (sep : string) (alts : list string)
    (redaction s : string) : string :=
  match fuel with
  | O => s
  | S fuel' =>
      match match_at sep alts s with
      | Some (f, rest) => f ++ "=" ++ redaction ++ sub_scan fuel' sep alts redaction rest
      | None =>
          match s with
          | EmptyString => EmptyString
          | String c s' => String c (sub_scan fuel' sep alts redaction s')
          end
      end
  end.

(** [filter_datum]: [re.sub(rf'({"|".join(fields)})=([^{separator}]+)',
    rf'\1={redaction}', message)]. Fields, separator and redaction are
    matched and inserted as text: this is [re]'s reading when they satisfy
    [regex_literal], [class_literal] and [template_literal] below
    (otherwise [re] may read them as regex syntax, or raise [re.error]);
    the properties of [filter_datum] below are stated for such inputs. *)
Definition filter_datum (fields : list string) (redaction message separator : string)
  : string :=
  sub_scan (S (String.length message)) separator (alternatives fields) redaction message.

(** Texts the regex reads literally: no metacharacter in a field, none of
    [] \ ^ -] in the class, no backslash in the replacement. *)
Definition regex_literal (f : string) : bool :=
  str_forall (fun c => negb (in_str c ".^$*+?{}[]\|()")) f.
Definition class_literal (sep : string) : bool :=
  negb (String.eqb sep "") && str_forall (fun c => negb (in_str c "]\^-")) sep.
Definition template_literal (r : string) : bool :=
  str_forall (fun c => negb (Ascii.eqb c "\"%char)) r.

Definition no_eq (s : string) : bool := str_forall (fun c => negb (Ascii.eqb c "="%char)) s.

(** [sep.join(f"{k}={v}" for k, v in segs)], the shape of the log lines of
    [main()]. *)
Fixpoint join_kv (sep : string) (segs : list (string * string)) : string :=
  match segs with
  | [] => ""
  | [(k, v)] => k ++ "=" ++ v
  | (k, v) :: segs' => k ++ "=" ++ v ++ sep ++ join_kv sep segs'
  end.

(** [s] ends with [f]. *)
Fixpoint suffixb (f s : string) : bool :=
  String.eqb f s
  || match s with EmptyString => false | String _ s' => suffixb f s' end.

(** The log line with the value of every key ending in an alternative
    replaced by the redaction. *)
Fixpoint redact_kv (alts : list string) (redaction sep : string)
    (segs : list (string * string)) : string :=
  match segs with
  | [] => ""
  | [(k, v)] =>
      k ++ "=" ++ (if existsb (fun f => suffixb f k) alts then redaction else v)
  | (k, v) :: segs' =>
      k ++ "=" ++ (if existsb (fun f => suffixb f k) alts then redaction else v)
      ++ sep ++ redact_kv alts redaction sep segs'
  end.

Lemma strip_prefix_app p s r : strip_prefix p s = Some r -> s = (p ++ r)%string.
Proof.
  revert s; induction p as [|a p IH]; intros [|b s] H; cbn in H |- *; try congruence.
  destruct (Ascii.eqb a b) eqn:E; [|discriminate].
  apply Ascii.eqb_eq in E; subst; cbn; f_equal; auto.
Qed.

Lemma strip_prefix_self p r : strip_prefix p (p ++ r)%string = Some r.
Proof. induction p as [|a p IH]; cbn; [reflexivity|now rewrite Ascii.eqb_refl]. Qed.

Lemma str_length_app (a b : string) :
  String.length (a ++ b) = (String.length a + String.length b)%nat.
Proof. induction a as [|c a IH]; cbn; [reflexivity|now rewrite IH]. Qed.

Lemma skip_nonsep_len sep t : (String.length (skip_nonsep sep t) <= String.length t)%nat.
Proof.
  induction t as [|c t IH]; cbn; [lia|]; destruct (in_str c sep); cbn; lia.
Qed.

Lemma match_alt_len sep f s r :
  match_alt sep f s = Some r -> (String.length r < String.length s)%nat.
Proof.
  unfold match_alt; destruct (strip_prefix f s) as [[|e [|c t]]|] eqn:E; try discriminate.
  destruct (_ && _); [|discriminate]; intros H; injection H as <-.
  apply strip_prefix_app in E; subst s.
  pose proof (skip_nonsep_len sep t); rewrite str_length_app; cbn; lia.
Qed.

Lemma match_at_some sep alts s f rest :
  match_at sep alts s = Some (f, rest) -> In f alts /\ match_alt sep f s = Some rest.
Proof.
  induction alts as [|f' alts IH]; cbn; [discriminate|].
  destruct (match_alt sep f' s) eqn:E.
  - intros H; injection H as <- <-; auto.
  - intros H; destruct (IH H); auto.
Qed.

Lemma match_at_none sep alts s :
  (forall f, In f alts -> match_alt sep f s = None) -> match_at sep alts s = None.
Proof.
  induction alts as [|f alts IH]; cbn; intros H; [reflexivity|].
  rewrite H by auto; apply IH; auto.
Qed.

Lemma sub_scan_fuel sep alts red n m s :
  (String.length s < n)%nat -> (String.length s < m)%nat ->
  sub_scan n sep alts red s = sub_scan m sep alts red s.
Proof.
  revert m s; induction n as [|n IH]; intros [|m] s Hn Hm; try lia; cbn.
  destruct (match_at sep alts s) as [[f rest]|] eqn:E.
  - apply match_at_some in E; destruct E as [_ E]; apply match_alt_len in E.
    f_equal; f_equal; f_equal; apply IH; lia.
  - destruct s as [|c s]; [reflexivity|]; cbn in Hn, Hm; f_equal; apply IH; lia.
Qed.

Lemma filter_datum_nil fields red sep : filter_datum fields red "" sep = "".
Proof.
  unfold filter_datum; cbn.
  rewrite match_at_none; [reflexivity|].
  intros f _; unfold match_alt; destruct (strip_prefix f "") as [[|e [|c t]]|] eqn:E;
    try reflexivity; apply strip_prefix_app in E; destruct f; discriminate.
Qed.

Lemma filter_datum_match fields red sep s f rest :
  match_at sep (alternatives fields) s = Some (f, rest) ->
  filter_datum fields red s sep
  = (f ++ "=" ++ red ++ filter_datum fields red rest sep)%string.
Proof.
  intros E; unfold filter_datum at 1; cbn [sub_scan]; rewrite E.
  pose proof E as E'; apply match_at_some in E'; destruct E' as [_ E'];
    apply match_alt_len in E'.
  unfold filter_datum; do 3 f_equal; apply sub_scan_fuel; lia.
Qed.

Lemma filter_datum_keep fields red sep c s :
  match_at sep (alternatives fields) (String c s) = None ->
  filter_datum fields red (String c s) sep = String c (filter_datum fields red s sep).
Proof.
  intros E; unfold filter_datum at 1; cbn [sub_scan]; rewrite E.
  unfold filter_datum; f_equal; apply sub_scan_fuel; cbn; lia.
Qed.

(** No character of [s] is in [sep]. *)
Definition nosep (sep s : string) : bool := str_forall (fun c => negb (in_str c sep)) s.

(** [t] is empty or starts with a separator character other than [=]. *)
Definition starts_sep (sep t : string) : bool :=
  match t with
  | EmptyString => true
  | String c _ => in_str c sep && negb (Ascii.eqb c "="%char)
  end.

Lemma str_app_nil (s : string) : (s ++ "")%string = s.
Proof. induction s as [|c s IH]; cbn; [reflexivity|now rewrite IH]. Qed.

Lemma key_eq (k f X Y : string) :
  no_eq k = true -> no_eq f = true ->
  (k ++ String "=" X)%string = (f ++ String "=" Y)%string -> k = f /\ X = Y.
Proof.
  revert f; induction k as [|c k IH]; intros [|a f] Hk Hf E; cbn in *.
  - injection E; auto.
  - injection E as <- _; discriminate.
  - injection E as -> _; discriminate.
  - injection E as -> E; apply andb_true_iff in Hk as [_ Hk];
      apply andb_true_iff in Hf as [_ Hf].
    destruct (IH f Hk Hf E) as [-> ->]; auto.
Qed.

Lemma skip_nonsep_app sep w t :
  nosep sep w = true -> starts_sep sep t = true -> skip_nonsep sep (w ++ t) = t.
Proof.
  induction w as [|c w IH]; cbn; intros Hw Ht.
  - destruct t as [|c t]; [reflexivity|]; cbn in Ht |- *.
    apply andb_true_iff in Ht as [-> _]; reflexivity.
  - apply andb_true_iff in Hw as [Hc Hw]; apply negb_true_iff in Hc; rewrite Hc; auto.
Qed.

Lemma match_alt_key sep f k v t :
  no_eq f = true -> no_eq k = true -> v <> "" -> nosep sep v = true ->
  starts_sep sep t = true ->
  match_alt sep f (k ++ String "=" (v ++ t)) = if String.eqb f k then Some t else None.
Proof.
  intros Hf Hk Hv Hs Ht; destruct (String.eqb_spec f k) as [->|Hn]; unfold match_alt.
  - rewrite strip_prefix_self; destruct v as [|c v]; [contradiction|]; cbn in Hs |- *.
    apply andb_true_iff in Hs as [Hc Hs]; rewrite Hc; cbn.
    now rewrite skip_nonsep_app.
  - destruct (strip_prefix f _) as [[|e [|c t']]|] eqn:E; try reflexivity.
    destruct (Ascii.eqb e "="%char) eqn:Ee; [|reflexivity].
    apply Ascii.eqb_eq in Ee; subst e; apply strip_prefix_app in E.
    destruct (key_eq _ _ _ _ Hk Hf E); congruence.
Qed.

Lemma match_at_key sep alts k v t :
  Forall (fun f => no_eq f = true) alts -> no_eq k = true -> v <> "" ->
  nosep sep v = true -> starts_sep sep t = true ->
  match_at sep alts (k ++ String "=" (v ++ t))
  = if existsb (fun f => String.eqb f k) alts then Some (k, t) else None.
Proof.
  intros Ha Hk Hv Hs Ht; induction Ha as [|f alts Hf Ha IH]; cbn; [reflexivity|].
  rewrite match_alt_key by assumption.
  destruct (String.eqb_spec f k) as [->|]; cbn; auto.
Qed.

Lemma strip_inert sep f w t r :
  nosep sep f = true -> no_eq w = true -> starts_sep sep t = true ->
  strip_prefix f (w ++ t) = Some r ->
  match r with String e _ => Ascii.eqb e "="%char = false | EmptyString => True end.
Proof.
  revert w; induction f as [|a f IH]; intros w Hf Hw Ht E; cbn in E.
  - injection E as <-; destruct w as [|c w]; cbn in *.
    + destruct t as [|c t]; [exact I|]; cbn in Ht.
      apply andb_true_iff in Ht as [_ Ht]; now apply negb_true_iff in Ht.
    + apply andb_true_iff in Hw as [Hc _]; now apply negb_true_iff in Hc.
  - cbn in Hf; apply andb_true_iff in Hf as [Ha Hf]; apply negb_true_iff in Ha.
    destruct w as [|c w]; cbn in E.
    + destruct t as [|c t]; [discriminate|]; cbn in Ht.
      apply andb_true_iff in Ht as [Hc _].
      destruct (Ascii.eqb a c) eqn:Eac; [|discriminate].
      apply Ascii.eqb_eq in Eac; subst; congruence.
    + destruct (Ascii.eqb a c); [|discriminate].
      cbn in Hw; apply andb_true_iff in Hw as [_ Hw]; exact (IH w Hf Hw Ht E).
Qed.

Lemma match_at_inert sep alts w t :
  Forall (fun f => nosep sep f = true) alts -> no_eq w = true ->
  starts_sep sep t = true -> match_at sep alts (w ++ t) = None.
Proof.
  intros Ha Hw Ht; apply match_at_none; intros f Hin.
  pose proof (proj1 (Forall_forall _ _) Ha f Hin) as Hf; unfold match_alt.
  destruct (strip_prefix f (w ++ t)) as [r|] eqn:E; [|reflexivity].
  pose proof (strip_inert sep f w t r Hf Hw Ht E) as Hr.
  destruct r as [|e [|c r]]; try reflexivity; now rewrite Hr.
Qed.

Lemma filter_datum_inert fields red sep w t :
  Forall (fun f => nosep sep f = true) (alternatives fields) -> no_eq w = true ->
  starts_sep sep t = true ->
  filter_datum fields red (w ++ t) sep = (w ++ filter_datum fields red t sep)%string.
Proof.
  intros Ha; induction w as [|c w IH]; intros Hw Ht; [reflexivity|].
  cbn [append]; rewrite <- (IH (proj2 (proj1 (andb_true_iff _ _) Hw)) Ht).
  apply filter_datum_keep; change (String c (w ++ t)) with ((String c w) ++ t)%string.
  now apply match_at_inert.
Qed.

Lemma filter_datum_sep_chars fields red sep p rest :
  Forall (fun f => nosep sep f = true) (alternatives fields) -> no_eq p = true ->
  (forall c, in_str c p = true -> in_str c sep = true) ->
  filter_datum fields red (p ++ rest) sep = (p ++ filter_datum fields red rest sep)%string.
Proof.
  intros Ha; induction p as [|c p IH]; intros Hp Hin; [reflexivity|].
  cbn in Hp; apply andb_true_iff in Hp as [Hc Hp]; apply negb_true_iff in Hc.
  cbn [append]; rewrite filter_datum_keep.
  - f_equal; apply IH; auto; intros c' H; apply Hin; cbn; now rewrite H, orb_true_r.
  - apply match_at_none; intros f Hf; unfold match_alt.
    pose proof (proj1 (Forall_forall _ _) Ha f Hf) as Hn.
    assert (Hcs : in_str c sep = true) by (apply Hin; cbn; now rewrite Ascii.eqb_refl).
    destruct f as [|a f]; cbn.
    + rewrite Hc; destruct (p ++ rest)%string; reflexivity.
    + cbn in Hn; apply andb_true_iff in Hn as [Ha' _]; apply negb_true_iff in Ha'.
      destruct (Ascii.eqb a c) eqn:E; [|reflexivity].
      apply Ascii.eqb_eq in E; subst; congruence.
Qed.

Lemma existsb_suffix_cons alts c k :
  existsb (fun f => suffixb f (String c k)) alts
  = existsb (fun f => String.eqb f (String c k)) alts
    || existsb (fun f => suffixb f k) alts.
Proof.
  induction alts as [|f alts IH]; cbn [existsb]; [reflexivity|]; rewrite IH.
  change (suffixb f (String c k)) with (String.eqb f (String c k) || suffixb f k).
  destruct (String.eqb f (String c k)), (suffixb f k),
    (existsb (fun f => String.eqb f (String c k)) alts),
    (existsb (fun f => suffixb f k) alts); reflexivity.
Qed.

Lemma existsb_suffix_nil alts :
  existsb (fun f => suffixb f "") alts = existsb (fun f => String.eqb f "") alts.
Proof.
  induction alts as [|f alts IH]; cbn [existsb]; [reflexivity|].
  change (suffixb f "") with (String.eqb f "" || false); now rewrite IH, orb_false_r.
Qed.

Lemma filter_datum_segment fields red sep k v t :
  Forall (fun f => no_eq f && nosep sep f = true) (alternatives fields) ->
  no_eq k = true -> v <> "" -> no_eq v = true -> nosep sep v = true ->
  starts_sep sep t = true ->
  filter_datum fields red (k ++ String "=" (v ++ t)) sep
  = (k ++ String "=" ((if existsb (fun f => suffixb f k) (alternatives fields)
                       then red else v) ++ filter_datum fields red t sep))%string.
Proof.
  intros Ha Hk Hv Hve Hvs Ht.
  assert (Ha1 : Forall (fun f => no_eq f = true) (alternatives fields))
    by (eapply Forall_impl; [|exact Ha]; intros f H; now apply andb_true_iff in H).
  assert (Ha2 : Forall (fun f => nosep sep f = true) (alternatives fields))
    by (eapply Forall_impl; [|exact Ha]; intros f H; now apply andb_true_iff in H).
  induction k as [|c k IH].
  - rewrite existsb_suffix_nil.
    pose proof (match_at_key sep (alternatives fields) "" v t Ha1 eq_refl Hv Hvs Ht) as E.
    destruct (existsb _ _).
    + now rewrite (filter_datum_match _ _ _ _ _ _ E).
    + cbn [append] in E |- *; rewrite (filter_datum_keep _ _ _ _ _ E).
      f_equal; now apply filter_datum_inert.
  - rewrite existsb_suffix_cons.
    pose proof (match_at_key sep (alternatives fields) (String c k) v t Ha1 Hk Hv Hvs Ht)
      as E.
    destruct (existsb (fun f => String.eqb f (String c k)) _); cbn [orb].
    + now rewrite (filter_datum_match _ _ _ _ _ _ E).
    + cbn [append] in E |- *; rewrite (filter_datum_keep _ _ _ _ _ E).
      f_equal; apply IH; cbn in Hk; now apply andb_true_iff in Hk.
Qed.

(** [key=value] pairs a log line can be cut into: keys and values without
    [=], values non-empty and without separator characters. *)
Definition kv_ok (sep : string) (kv : string * string) : bool :=
  no_eq (fst kv) && no_eq (snd kv) && nosep sep (snd kv)
  && negb (String.eqb (snd kv) "").

Lemma in_str_self c s : in_str c (String c s) = true.
Proof. cbn; now rewrite Ascii.eqb_refl. Qed.

Lemma filter_datum_join fields red sep segs :
  Forall (fun f => no_eq f && nosep sep f = true) (alternatives fields) ->
  sep <> "" -> no_eq sep = true -> forallb (kv_ok sep) segs = true ->
  filter_datum fields red (join_kv sep segs) sep
  = redact_kv (alternatives fields) red sep segs.
Proof.
  intros Ha Hs Hse; induction segs as [|[k v] segs IH]; intros Hk.
  - apply filter_datum_nil.
  - cbn [forallb] in Hk; apply andb_true_iff in Hk as [Hkv Hk].
    unfold kv_ok in Hkv; cbn [fst snd] in Hkv.
    apply andb_true_iff in Hkv as [Hkv Hv0]; apply andb_true_iff in Hkv as [Hkv Hvs];
      apply andb_true_iff in Hkv as [Hke Hve].
    assert (Hv : v <> "") by (intros ->; discriminate).
    assert (Ha2 : Forall (fun f => nosep sep f = true) (alternatives fields))
      by (eapply Forall_impl; [|exact Ha]; intros f H; now apply andb_true_iff in H).
    destruct segs as [|kv2 segs].
    + cbn [join_kv redact_kv]; rewrite <- (str_app_nil v) at 1.
      change (k ++ "=" ++ v ++ "")%string with (k ++ String "=" (v ++ ""))%string.
      rewrite filter_datum_segment by (auto; reflexivity).
      now rewrite filter_datum_nil, str_app_nil.
    + change (join_kv sep ((k, v) :: kv2 :: segs))
        with (k ++ String "=" (v ++ (sep ++ join_kv sep (kv2 :: segs))))%string.
      change (redact_kv (alternatives fields) red sep ((k, v) :: kv2 :: segs))
        with (k ++ String "=" ((if existsb (fun f => suffixb f k) (alternatives fields)
                                then red else v)
              ++ (sep ++ redact_kv (alternatives fields) red sep (kv2 :: segs))))%string.
      rewrite filter_datum_segment; auto.
      * rewrite filter_datum_sep_chars, IH; auto.
      * destruct sep as [|c sep]; [contradiction|]; cbn [starts_sep append].
        rewrite in_str_self; cbn in Hse |- *; now apply andb_true_iff in Hse as [-> _].
Qed.

Lemma alternatives_ok fields sep :
  forallb (fun f => no_eq f && nosep sep f) fields = true ->
  Forall (fun f => no_eq f && nosep sep f = true) (alternatives fields).
Proof.
  intros H; destruct fields as [|f fields]; [repeat constructor|].
  apply Forall_forall; intros g Hg; exact (proj1 (forallb_forall _ _) H g Hg).
Qed.

Lemma redact_kv_join alts red sep segs :
  redact_kv alts red sep segs
  = join_kv sep (map (fun kv => (fst kv, if existsb (fun f => suffixb f (fst kv)) alts
                                       then red else snd kv)) segs).
Proof.
  induction segs as [|[k v] segs IH]; [reflexivity|].
  destruct segs as [|kv2 segs]; [reflexivity|].
  change (redact_kv alts red sep ((k, v) :: kv2 :: segs))
    with (k ++ "=" ++ (if existsb (fun f => suffixb f k) alts then red else v)
          ++ sep ++ redact_kv alts red sep (kv2 :: segs))%string.
  rewrite IH; reflexivity.
Qed.



Lemma suffixb_nil k : suffixb "" k = true.
Proof. induction k as [|a k IH]; [reflexivity|]; exact IH. Qed.

(** Extra: with no field, the pattern is [()=([^sep]+)], which matches
    the empty text in front of each [=]. For a separator read literally by
    [re] and free of [=], and a redaction without backslash, every value
    of a [k1=v1<sep>k2=v2...] log line (keys and values without [=],
    values non-empty and free of separator characters) is redacted. *)
Theorem filter_datum_no_fields_redacts_all (redaction separator : string)
    (segs : list (string * string)) :
  class_literal separator = true -> template_literal redaction = true ->
  no_eq separator = true -> forallb (kv_ok separator) segs = true ->
  filter_datum [] redaction (join_kv separator segs) separator
  = join_kv separator (map (fun kv => (fst kv, redaction)) segs).
Proof.
  intros Hc _ Hse Hk.
  assert (Hs : separator <> "") by (intros ->; discriminate).
  rewrite filter_datum_join by (auto; repeat constructor).
  rewrite redact_kv_join; f_equal; apply map_ext; intros kv.
  cbn [alternatives existsb]; now rewrite suffixb_nil.
Qed.

Lemma filter_datum_no_fields_redacts_all_witness :
  filter_datum [] "xxx" (join_kv ";" [("email", "a@b.c"); ("ip", "1.2.3.4")]) ";"
  = join_kv ";" [("email", "xxx"); ("ip", "xxx")].
Proof.
  exact (filter_datum_no_fields_redacts_all "xxx" ";"
           [("email", "a@b.c"); ("ip", "1.2.3.4")] eq_refl eq_refl eq_refl eq_refl).
Defined.

Lemma strip_prefix_no_eq f s r :
  strip_prefix f s = Some r -> no_eq s = true -> no_eq r = true.
Proof.
  revert s; induction f as [|a f IH]; intros s E Hs.
  - injection E as <-; exact Hs.
  - destruct s as [|b s]; [discriminate|]; cbn in E.
    destruct (Ascii.eqb a b); [|discriminate].
    apply (IH s E); cbn in Hs; now apply andb_true_iff in Hs as [_ Hs].
Qed.

Lemma match_at_no_eq sep alts s :
  no_eq s = true -> match_at sep alts s = None.
Proof.
  intros Hs; apply match_at_none; intros f _; unfold match_alt.
  destruct (strip_prefix f s) as [r|] eqn:E; [|reflexivity].
  pose proof (strip_prefix_no_eq _ _ _ E Hs) as Hr.
  destruct r as [|e [|c t]]; try reflexivity.
  cbn in Hr; apply andb_true_iff in Hr as [He _]; apply negb_true_iff in He.
  now rewrite He.
Qed.

(** Extra: when the fields, the separator and the redaction are read
    literally by [re] (no metacharacter in a field, none of [] \ ^ -] in
    the non-empty separator, no backslash in the redaction), a message
    without any [=] is returned unchanged by [filter_datum]. *)
Theorem filter_datum_without_eq_unchanged (fields : list string)
    (redaction message separator : string) :
  forallb regex_literal fields = true -> class_literal separator = true ->
  template_literal redaction = true ->
  no_eq message = true -> filter_datum fields redaction message separator = message.
Proof.
  intros _ _ _; induction message as [|c message IH]; intros Hm; [apply filter_datum_nil|].
  rewrite filter_datum_keep by now apply match_at_no_eq.
  cbn in Hm; apply andb_true_iff in Hm as [_ Hm]; now rewrite IH.
Qed.

Lemma filter_datum_without_eq_unchanged_witness :
  filter_datum ["password"] "***" "password reset for bob" ";" = "password reset for bob".
Proof.
  exact (filter_datum_without_eq_unchanged ["password"] "***" "password reset for bob" ";"
           eq_refl eq_refl eq_refl eq_refl).
Defined.

(** [PII_FIELDS] and the message [RedactingFormatter(fields).format] puts
    in [record.msg] before the base formatter renders it. *)
Definition PII_FIELDS : list string := ["name"; "email"; "phone"; "ssn"; "password"].
Definition REDACTION : string := "***".
Definition SEPARATOR : string := ";".

Definition redacting_msg (fields : list string) (msg : string) : string :=
  filter_datum fields REDACTION msg SEPARATOR.

(** The line [main()] logs for a row: ["; ".join(f"{key}={value}" ...)]. *)
Definition main_line (row : list (string * string)) : string := join_kv "; " row.

(** The same line cut at [;]: every key after the first starts with a space. *)
Definition space_key (kv : string * string) : string * string := (String " " (fst kv), snd kv).
Definition main_to_sep (row : list (string * string)) : list (string * string) :=
  match row with [] => [] | kv :: row' => kv :: map space_key row' end.

Lemma join_kv_space_tail kv row :
  String " " (join_kv "; " (kv :: row)) = join_kv ";" (map space_key (kv :: row)).
Proof.
  revert kv; induction row as [|kv2 row IH]; intros [k v]; [reflexivity|].
  change (join_kv "; " ((k, v) :: kv2 :: row))
    with (k ++ "=" ++ v ++ "; " ++ join_kv "; " (kv2 :: row))%string.
  change (join_kv ";" (map space_key ((k, v) :: kv2 :: row)))
    with (String " " k ++ "=" ++ v ++ ";" ++ join_kv ";" (map space_key (kv2 :: row)))%string.
  rewrite <- IH; reflexivity.
Qed.

Lemma join_kv_main row : main_line row = join_kv ";" (main_to_sep row).
Proof.
  unfold main_line; destruct row as [|[k v] [|kv2 row]]; try reflexivity.
  change (join_kv "; " ((k, v) :: kv2 :: row))
    with (k ++ "=" ++ v ++ ";" ++ String " " (join_kv "; " (kv2 :: row)))%string.
  now rewrite join_kv_space_tail.
Qed.

Lemma kv_ok_main_to_sep row :
  forallb (kv_ok ";") row = true -> forallb (kv_ok ";") (main_to_sep row) = true.
Proof.
  destruct row as [|kv row]; [reflexivity|]; cbn [main_to_sep forallb].
  intros H; apply andb_true_iff in H as [H1 H2]; rewrite H1; cbn [andb].
  induction row as [|kv2 row IH]; [reflexivity|]; cbn [map forallb] in *.
  apply andb_true_iff in H2 as [H3 H4]; rewrite (IH H4), andb_true_r.
  exact H3.
Qed.

Lemma suffixb_space f k :
  match f with String c _ => Ascii.eqb c " "%char = false | EmptyString => True end ->
  suffixb f (String " " k) = suffixb f k.
Proof.
  intros Hf; change (suffixb f (String " " k)) with (String.eqb f (String " " k) || suffixb f k).
  destruct f as [|c f]; [now rewrite suffixb_nil, orb_true_r|].
  cbn [String.eqb]; now rewrite Hf.
Qed.

(** Extra: the formatter that [get_logger] installs redacts the lines of
    [main()]: in ["; ".join(f"{key}={value}" ...)], the value of each key
    that ends with one of [PII_FIELDS] becomes [***] and every other pair is
    kept, when keys and values have no [=], values have no [;], and no
    value is empty. *)
Theorem redacting_msg_main_line (row : list (string * string)) :
  forallb (kv_ok ";") row = true ->
  redacting_msg PII_FIELDS (main_line row)
  = main_line (map (fun kv => (fst kv, if existsb (fun f => suffixb f (fst kv)) PII_FIELDS
                                      then REDACTION else snd kv)) row).
Proof.
  intros Hk; unfold redacting_msg, SEPARATOR.
  rewrite !join_kv_main, filter_datum_join, redact_kv_join.
  - f_equal; destruct row as [|kv row]; [reflexivity|]; cbn [main_to_sep map]; f_equal.
    rewrite !map_map; apply map_ext; intros [k v]; unfold space_key; cbn [fst snd].
    cbn [alternatives PII_FIELDS existsb]; rewrite !suffixb_space by reflexivity; reflexivity.
  - apply alternatives_ok; reflexivity.
  - discriminate.
  - reflexivity.
  - now apply kv_ok_main_to_sep.
Qed.

Definition row_bob : list (string * string) :=
  [("name", "Bob Li"); ("email", "bob@x.io"); ("ip", "1.2.3.4"); ("username", "bo");
   ("last_login", "2019-11-14")].

Lemma redacting_msg_main_line_witness :
  redacting_msg PII_FIELDS (main_line row_bob)
  = "name=***; email=***; ip=1.2.3.4; username=***; last_login=2019-11-14".
Proof.
  rewrite (redacting_msg_main_line row_bob eq_refl); reflexivity.
Defined.

(** Extra: [GET /users/:id] for an id other than [me] never changes the
    store, whatever [request.current_user] is: it answers 404 "Not found"
    when the id is not stored and 200 with the stored user's public JSON
    ([to_json()]) otherwise. *)
Theorem view_one_user_by_id (current_user : option (option obj)) (user_id : string)
    (st : store) :
  user_id <> "me" ->
  (lookup user_id (st_data st) = None ->
   view_one_user current_user user_id st = (Ok (Resp 404 (error_body "Not found")), st))
  /\ (forall u, lookup user_id (st_data st) = Some u ->
      view_one_user current_user user_id st = (Ok (Resp 200 (PDict (to_json false u))), st)).
Proof.
  intros Hme; unfold view_one_user; apply String.eqb_neq in Hme; rewrite Hme; split.
  - intros Hn; apply dispatch_404; unfold bind.
    now rewrite get_user_by_id_missing.
  - intros u Hu; unfold dispatch, try_catch, bind.
    now rewrite (get_user_by_id_found _ _ _ Hu).
Qed.

Lemma view_one_user_by_id_witness :
  view_one_user None "u1" store_ab = (Ok (Resp 200 (PDict (to_json false user_ab))), store_ab)
  /\ view_one_user None "u7" store_ab = (Ok (Resp 404 (error_body "Not found")), store_ab).
Proof.
  split.
  - exact (proj2 (view_one_user_by_id None "u1" store_ab ltac:(discriminate)) user_ab
             eq_refl).
  - exact (proj1 (view_one_user_by_id None "u7" store_ab ltac:(discriminate)) eq_refl).
Defined.
